(** * Shallow embedding of the customer-ledger core of [streamlit_app.py]

    The embedding covers [normalize_phone], the grouping step of
    [initialize_customer_payment_data], the construction of the payment
    view from the payment tracker, and the session-state effects of the
    runs of [main] (upload, clear, refresh, "Save All Changes"); then the
    password gate, the persistence of the saved files, [create_dashboard]
    and the bills tab with the summary table of [create_bill_pdf].

    Amounts of money are modelled exactly, as integers (paise). *)

From Stdlib Require Import ZArith Ascii String Bool QArith_base.
From stdpp Require Import base gmap strings list.

Open Scope Z_scope.

(* ------------------------------------------------------------------ *)
(** ** Python exceptions and fallible results *)

Inductive py_exc := ValueError | OverflowError | TypeError.

Inductive res (A : Type) : Type :=
| Ok (a : A)
| Raise (e : py_exc).
Arguments Ok {A} a.
Arguments Raise {A} e.

Global Instance res_ret : MRet res := fun A a => Ok a.
Global Instance res_bind : MBind res := fun A B f m =>
  match m with Ok a => f a | Raise e => Raise e end.

(* ------------------------------------------------------------------ *)
(** ** Python floats and the cells of a pandas column *)

(** A Python [float]: a finite value [m * 2^e], an infinity or NaN. *)
Inductive pyfloat :=
| FFin (m e : Z)
| FInf (neg : bool)
| FNaN.

(** A cell of the [CustomerNumber] column as pandas hands it to
    [normalize_phone]: a missing value ([None], [pd.NA], [NaT]), an
    integer, a float or a string. *)
Inductive cell :=
| CNone
| CInt (n : Z)
| CFloat (x : pyfloat)
| CStr (s : string).

(** [pd.isna]: missing markers and float NaN; a string is never NA. *)
Definition is_na (c : cell) : bool :=
  match c with
  | CNone => true
  | CFloat FNaN => true
  | _ => false
  end.

(* ------------------------------------------------------------------ *)
(** ** Rounding to the nearest double (IEEE 754 binary64, ties to even) *)

(** [pow2_le a b k] decides [2^k <= a / b]. *)
Definition pow2_le (a b k : Z) : bool :=
  if 0 <=? k then b * 2 ^ k <=? a else b <=? a * 2 ^ (- k).

(** The double nearest to [a / b] (with [a >= 0], [b > 0]), negated when
    [neg]; [FInf] when it overflows. *)
Definition round_to_double (neg : bool) (a b : Z) : pyfloat :=
  if a =? 0 then FFin 0 0 else
  let k0 := Z.log2 a - Z.log2 b in
  let k := if pow2_le a b k0 then k0 else k0 - 1 in
  let e := Z.max (k - 52) (-1074) in
  let num := if 0 <=? e then a else a * 2 ^ (- e) in
  let den := if 0 <=? e then b * 2 ^ e else b in
  let q := num / den in
  let r := num mod den in
  let m := if den <? 2 * r then q + 1
           else if 2 * r <? den then q
           else if Z.even q then q else q + 1 in
  if (0 <=? e) && (2 ^ 1024 <=? m * 2 ^ e) then FInf neg
  else FFin (if neg then - m else m) e.

(** The double nearest to [mant * 10^exp]. *)
Definition round_decimal (neg : bool) (mant exp : Z) : pyfloat :=
  if 0 <=? exp then round_to_double neg (mant * 10 ^ exp) 1
  else round_to_double neg mant (10 ^ (- exp)).

(* ------------------------------------------------------------------ *)
(** ** [float(s)] on a string *)

Definition is_py_space (c : ascii) : bool :=
  let n := nat_of_ascii c in
  ((n =? 32)%nat || ((9 <=? n)%nat && (n <=? 13)%nat)
   || ((28 <=? n)%nat && (n <=? 31)%nat)).

Fixpoint drop_spaces (l : list ascii) : list ascii :=
  match l with
  | c :: r => if is_py_space c then drop_spaces r else l
  | [] => []
  end.

(** Leading and trailing white space is ignored by [float()]. *)
Definition py_strip (l : list ascii) : list ascii :=
  rev (drop_spaces (rev (drop_spaces l))).

Definition is_digit (c : ascii) : bool :=
  let n := nat_of_ascii c in ((48 <=? n)%nat && (n <=? 57)%nat).

Definition dval (c : ascii) : Z := Z.of_nat (nat_of_ascii c) - 48.

Definition lower (c : ascii) : ascii :=
  let n := nat_of_ascii c in
  if (65 <=? n)%nat && (n <=? 90)%nat then ascii_of_nat (n + 32) else c.

(** The digits following a first digit: digits, each optionally preceded
    by one underscore; stops before anything else. *)
Fixpoint digits_after (l : list ascii) : list Z * list ascii :=
  match l with
  | c :: r =>
      if is_digit c then let '(ds, rest) := digits_after r in (dval c :: ds, rest)
      else if (c =? "_")%char then
        match r with
        | d :: r' =>
            if is_digit d then let '(ds, rest) := digits_after r' in (dval d :: ds, rest)
            else ([], l)
        | [] => ([], l)
        end
      else ([], l)
  | [] => ([], [])
  end.

(** [digitpart ::= digit (["_"] digit)*] *)
Definition digitpart (l : list ascii) : option (list Z * list ascii) :=
  match l with
  | c :: r => if is_digit c then let '(ds, rest) := digits_after r in Some (dval c :: ds, rest)
              else None
  | [] => None
  end.

Definition digits_value (ds : list Z) : Z := fold_left (fun a d => 10 * a + d) ds 0.

(** [[exponent]] at the end of the literal; [Some 0] when absent. *)
Definition parse_exponent (l : list ascii) : option Z :=
  match l with
  | [] => Some 0
  | c :: r =>
      if (c =? "e")%char || (c =? "E")%char then
        let '(neg, r') :=
          match r with
          | s :: r'' => if (s =? "+")%char then (false, r'')
                        else if (s =? "-")%char then (true, r'') else (false, r)
          | [] => (false, r)
          end in
        match digitpart r' with
        | Some (ds, []) => Some (if neg then - digits_value ds else digits_value ds)
        | _ => None
        end
      else None
  end.

(** The rest of a literal whose integer part [ip] has been read. *)
Definition after_int (ip : list Z) (r : list ascii) : option (Z * Z) :=
  match r with
  | c :: r2 =>
      if (c =? ".")%char then
        match digitpart r2 with
        | Some (fp, r3) =>
            e ← parse_exponent r3; Some (digits_value (ip ++ fp), e - Z.of_nat (length fp))
        | None => e ← parse_exponent r2; Some (digits_value ip, e)
        end
      else e ← parse_exponent r; Some (digits_value ip, e)
  | [] => Some (digits_value ip, 0)
  end.

(** A decimal literal: mantissa and decimal exponent of its value. *)
Definition parse_decimal (l : list ascii) : option (Z * Z) :=
  match digitpart l with
  | Some (ip, r) => after_int ip r
  | None =>
      match l with
      | c :: r2 =>
          if (c =? ".")%char then
            match digitpart r2 with
            | Some (fp, r3) =>
                e ← parse_exponent r3; Some (digits_value fp, e - Z.of_nat (length fp))
            | None => None
            end
          else None
      | [] => None
      end
  end.

(** [float(s)] for a string [s]. *)
Definition float_of_string (s : string) : res pyfloat :=
  let l := py_strip (list_ascii_of_string s) in
  let '(neg, body) :=
    match l with
    | c :: r => if (c =? "-")%char then (true, r)
                else if (c =? "+")%char then (false, r) else (false, l)
    | [] => (false, [])
    end in
  let w := string_of_list_ascii (map lower body) in
  if (w =? "inf")%string || (w =? "infinity")%string then Ok (FInf neg)
  else if (w =? "nan")%string then Ok FNaN
  else match parse_decimal body with
       | Some (mant, e) => Ok (round_decimal neg mant e)
       | None => Raise ValueError
       end.

(** [float(phone)] on a cell. *)
Definition py_float (c : cell) : res pyfloat :=
  match c with
  | CNone => Raise TypeError
  | CInt n =>
      match round_to_double (n <? 0) (Z.abs n) 1 with
      | FInf _ => Raise OverflowError
      | x => Ok x
      end
  | CFloat x => Ok x
  | CStr s => float_of_string s
  end.

(** [int(x)] on a float: truncation toward zero. *)
Definition py_int (x : pyfloat) : res Z :=
  match x with
  | FFin m e => Ok (if 0 <=? e then m * 2 ^ e else Z.quot m (2 ^ (- e)))
  | FInf _ => Raise OverflowError
  | FNaN => Raise ValueError
  end.

(* ------------------------------------------------------------------ *)
(** ** [str(n)] on an integer *)

Definition digit_char (d : Z) : ascii := ascii_of_nat (Z.to_nat d + 48).

(** Decimal digits of [n >= 0]; [fuel] bounds the number of digits. *)
Fixpoint dec_digits (fuel : nat) (n : Z) : list ascii :=
  match fuel with
  | O => []
  | S f => if n <? 10 then [digit_char n]
           else dec_digits f (n / 10) ++ [digit_char (n mod 10)]
  end.

Definition py_str_int (n : Z) : string :=
  let ds := dec_digits (S (Z.to_nat (Z.log2 (Z.abs n)))) (Z.abs n) in
  string_of_list_ascii (if n <? 0 then "-"%char :: ds else ds).

(* ------------------------------------------------------------------ *)
(** ** [normalize_phone] *)

Definition normalize_phone (phone : cell) : res (option string) :=
  if is_na phone then Ok None else
  x ← py_float phone;
  n ← py_int x;
  let phone_str := py_str_int n in
  let phone_str :=
    if String.prefix "91" phone_str && (String.length phone_str =? 12)%nat
    then String.substring 2 (String.length phone_str - 2) phone_str
    else phone_str in
  if (String.length phone_str =? 10)%nat then Ok (Some phone_str)
  else Ok (Some phone_str).

(* ------------------------------------------------------------------ *)
(** ** Receipts and the per-customer summary (pandas [groupby]) *)

(** A row of [df_receipts] (the columns the ledger reads). *)
Record receipt := {
  ReceiptId : string;
  CustomerName : option string;
  CustomerNumber : cell;
  Total : Z;
  PaymentMode : string
}.

(** A row of [customer_summary]. *)
Record summary_row := {
  cs_NormalizedPhone : string;
  cs_CustomerName : option string;
  cs_CustomerNumber : cell;
  cs_Total : Z
}.

Definition sum_list (l : list Z) : Z := foldr Z.add 0 l.

(** [GroupBy.first]: the first non-null value of the group. *)
Fixpoint first_some {A} (l : list (option A)) : option A :=
  match l with
  | Some x :: _ => Some x
  | None :: r => first_some r
  | [] => None
  end.

Fixpoint first_cell (l : list cell) : cell :=
  match l with
  | c :: r => if is_na c then first_cell r else c
  | [] => CNone
  end.

(** Group keys are sorted ([groupby(sort=True)]), by Python's [str] order. *)
Fixpoint insert_key (k : string) (l : list string) : list string :=
  match l with
  | [] => [k]
  | x :: r => if String.leb k x then k :: l else x :: insert_key k r
  end.

Definition sort_keys (l : list string) : list string := foldr insert_key [] l.

(** The rows paired with their [NormalizedPhone]; rows whose key is null
    are dropped ([dropna=True]). *)
Definition keyed_rows (ks : list (option string)) (df : list receipt) : list (string * receipt) :=
  omap (fun '(k, r) => (fun k' => (k', r)) <$> k) (zip ks df).

Definition group_of (keyed : list (string * receipt)) (k : string) : list receipt :=
  snd <$> filter (fun p => p.1 = k) keyed.

(** [df.groupby('NormalizedPhone', dropna=True).agg({'CustomerName': 'first',
    'CustomerNumber': 'first', 'Total': 'sum'}).reset_index()], after
    [df['NormalizedPhone'] = df['CustomerNumber'].apply(normalize_phone)]. *)
Definition customer_summary (df : list receipt) : res (list summary_row) :=
  ks ← mapM (fun r => normalize_phone (CustomerNumber r)) df;
  let keyed := keyed_rows ks df in
  Ok ((fun k =>
         let grp := group_of keyed k in
         {| cs_NormalizedPhone := k;
            cs_CustomerName := first_some (CustomerName <$> grp);
            cs_CustomerNumber := first_cell (CustomerNumber <$> grp);
            cs_Total := sum_list (Total <$> grp) |})
      <$> sort_keys (remove_dups (fst <$> keyed))).

(* ------------------------------------------------------------------ *)
(** ** The payment tracker and the payment view *)

(** The JSON object stored for one phone in [payment_tracker]; [None]
    stands for an absent key. *)
Record tracker_entry := {
  customer_name : option string;
  address : option string;
  previous_balance : option Z;
  advance_amount : option Z;
  payment_status : option string;
  amount_paid : option Z;
  payment_mode : option string;
  received_on : option string;
  cash_collected : option bool;
  cash_deposited : option bool;
  remarks : option string;
  advance_cf : option Z;
  last_updated : option string
}.

(** [{}] *)
Definition empty_entry : tracker_entry :=
  {| customer_name := None; address := None; previous_balance := None;
     advance_amount := None; payment_status := None; amount_paid := None;
     payment_mode := None; received_on := None; cash_collected := None;
     cash_deposited := None; remarks := None; advance_cf := None;
     last_updated := None |}.

(** [st.session_state.payment_tracker]: a dict keyed by the [Phone] cell
    of a row ([None] for a row without phone). *)
Abbreviation tracker := (gmap (option string) tracker_entry).

(** A row of [customer_payment_data] (one column per field). *)
Record view_row := {
  Name : option string;
  Phone : option string;
  Address : string;
  Amount_Due : Z;
  Previous_Balance : Z;
  Advance_Given : string;
  Advance_Amount : Z;
  Payment_Status : string;
  Amount_Paid : Z;
  Remaining_Amount : Z;
  Payment_Mode : string;
  Received_On : string;
  Cash_Collected : bool;
  Cash_Deposited : bool;
  Remarks : string;
  Advance_CF : Z
}.

(** The body of the loop over [customer_summary.iterrows()]. *)
Definition payment_row (payment_tracker : tracker) (row : summary_row) : view_row :=
  let phone := cs_NormalizedPhone row in
  let name := cs_CustomerName row in
  let amount_due := cs_Total row in
  let tracker_info := default empty_entry (payment_tracker !! Some phone) in
  let previous_balance := default 0 (previous_balance tracker_info) in
  let advance_amount := default 0 (advance_amount tracker_info) in
  let amount_paid := default 0 (amount_paid tracker_info) in
  let remaining := amount_due + previous_balance - advance_amount - amount_paid in
  {| Name := name;
     Phone := Some phone;
     Address := default "" (address tracker_info);
     Amount_Due := amount_due;
     Previous_Balance := previous_balance;
     Advance_Given := if 0 <? advance_amount then "Yes" else "No";
     Advance_Amount := advance_amount;
     Payment_Status := default "Due" (payment_status tracker_info);
     Amount_Paid := amount_paid;
     Remaining_Amount := remaining;
     Payment_Mode := default "" (payment_mode tracker_info);
     Received_On := default "" (received_on tracker_info);
     Cash_Collected := default false (cash_collected tracker_info);
     Cash_Deposited := default false (cash_deposited tracker_info);
     Remarks := default "" (remarks tracker_info);
     Advance_CF := default 0 (advance_cf tracker_info) |}.

Definition rc (name : string) (phone : cell) (total : Z) : receipt :=
  {| ReceiptId := "r"; CustomerName := Some name; CustomerNumber := phone;
     Total := total; PaymentMode := "Credit" |}.

(* ------------------------------------------------------------------ *)
(** ** Session state and the runs of [main] *)

(** The content of [payment_tracker.json]: a JSON object, or text that
    [json.load] rejects. *)
Inductive json_file :=
| JValid (t : tracker)
| JCorrupt.

(** [st.session_state] (the fields the ledger uses) and the tracker file. *)
Record session := {
  df_receipts : option (list receipt);
  payment_tracker : tracker;
  customer_payment_data : option (list view_row);
  tracker_file : option json_file
}.

(** A computation on the session that may raise; the session is the one
    reached when it returns or raises. *)
Definition M (A : Type) : Type := session -> res A * session.

Definition st_ret {A} (a : A) : M A := fun s => (Ok a, s).
Definition st_bind {A B} (m : M A) (k : A -> M B) : M B := fun s =>
  match m s with
  | (Ok a, s') => k a s'
  | (Raise e, s') => (Raise e, s')
  end.
Definition st_lift {A} (r : res A) : M A := fun s => (r, s).
Definition st_get : M session := fun s => (Ok s, s).
Definition st_modify (f : session -> session) : M unit := fun s => (Ok tt, f s).
(** [try: m except Exception: h] *)
Definition st_try {A} (m : M A) (h : py_exc -> M A) : M A := fun s =>
  match m s with
  | (Raise e, s') => h e s'
  | r => r
  end.

Notation "x <- m ;; k" := (st_bind m (fun x => k))
  (at level 99, m at next level, right associativity).
Notation "m ;;; k" := (st_bind m (fun _ => k)) (at level 99, right associativity).

Definition set_receipts (d : option (list receipt)) (s : session) : session :=
  {| df_receipts := d; payment_tracker := payment_tracker s;
     customer_payment_data := customer_payment_data s; tracker_file := tracker_file s |}.
Definition set_tracker (t : tracker) (s : session) : session :=
  {| df_receipts := df_receipts s; payment_tracker := t;
     customer_payment_data := customer_payment_data s; tracker_file := tracker_file s |}.
Definition set_view (v : option (list view_row)) (s : session) : session :=
  {| df_receipts := df_receipts s; payment_tracker := payment_tracker s;
     customer_payment_data := v; tracker_file := tracker_file s |}.
Definition set_file (f : option json_file) (s : session) : session :=
  {| df_receipts := df_receipts s; payment_tracker := payment_tracker s;
     customer_payment_data := customer_payment_data s; tracker_file := f |}.

(** [load_payment_tracker] *)
Definition load_payment_tracker : M unit :=
  s <- st_get;;
  match tracker_file s with
  | Some (JValid t) => st_modify (set_tracker t)
  | Some JCorrupt => st_modify (set_tracker ∅)
  | None => st_ret tt
  end.

(** [save_payment_tracker] *)
Definition save_payment_tracker : M unit :=
  s <- st_get;; st_modify (set_file (Some (JValid (payment_tracker s)))).

(** [initialize_customer_payment_data] *)
Definition initialize_customer_payment_data : M (option (list view_row)) :=
  s <- st_get;;
  match df_receipts s with
  | None => st_ret None
  | Some df =>
      customer_summary <- st_lift (customer_summary df);;
      st_ret (Some (payment_row (payment_tracker s) <$> customer_summary))
  end.

(** The upload branch of the sidebar: normalize, keep the [Credit]
    receipts, replace [CustomerNumber] by the normalized phone, rebuild
    the payment view. *)
Definition cell_of_phone (k : option string) : cell :=
  match k with Some p => CStr p | None => CNone end.

Definition import_receipts (df_receipts_raw : list receipt) : M unit :=
  normalized <- st_lift (mapM (fun r => normalize_phone (CustomerNumber r)) df_receipts_raw);;
  let df_receipts_filtered :=
    (fun '(k, r) =>
       {| ReceiptId := ReceiptId r; CustomerName := CustomerName r;
          CustomerNumber := cell_of_phone k; Total := Total r;
          PaymentMode := PaymentMode r |})
      <$> filter (fun p => PaymentMode p.2 = "Credit") (zip normalized df_receipts_raw) in
  st_modify (set_receipts (Some df_receipts_filtered));;;
  v <- initialize_customer_payment_data;;
  st_modify (set_view v).

(** The body of [if st.button("Save All Changes")]. *)
Definition entry_of_row (row : view_row) (now : string) : tracker_entry :=
  {| customer_name := Name row;
     address := Some (Address row);
     previous_balance := Some (Previous_Balance row);
     advance_amount := Some (Advance_Amount row);
     payment_status := Some (Payment_Status row);
     amount_paid := Some (Amount_Paid row);
     payment_mode := Some (Payment_Mode row);
     received_on := Some (Received_On row);
     cash_collected := Some (Cash_Collected row);
     cash_deposited := Some (Cash_Deposited row);
     remarks := Some (Remarks row);
     advance_cf := Some (Advance_CF row);
     last_updated := Some now |}.

Definition update_tracker (edited_df : list view_row) (now : string) (t : tracker) : tracker :=
  foldl (fun t row => <[Phone row := entry_of_row row now]> t) t edited_df.

Definition save_all_changes (edited_df : list view_row) (now : string) : M unit :=
  s <- st_get;;
  st_modify (set_tracker (update_tracker edited_df now (payment_tracker s)));;;
  st_modify (set_view (Some edited_df));;;
  save_payment_tracker.

(** The filters of the payment-tracking tab.  [str.contains] is applied
    with a search text taken literally (no regular-expression syntax). *)
Record view_filter := {
  filter_status : list string;
  search_name : string;
  search_phone : string
}.

Fixpoint prefixb (p s : list ascii) : bool :=
  match p, s with
  | [], _ => true
  | c :: p', d :: s' => (c =? d)%char && prefixb p' s'
  | _ :: _, [] => false
  end.

Fixpoint containsb (p s : list ascii) : bool :=
  prefixb p s || match s with [] => false | _ :: s' => containsb p s' end.

Definition str_contains (case : bool) (pat s : string) : bool :=
  let p := list_ascii_of_string pat in
  let l := list_ascii_of_string s in
  if case then containsb p l else containsb (lower <$> p) (lower <$> l).

(** [filtered_df] built from [df] by the three filters. *)
Definition filter_view (f : view_filter) (df : list view_row) : list view_row :=
  let filtered_df :=
    if decide ("All" ∈ filter_status f) then df
    else filter (fun r => Payment_Status r ∈ filter_status f) df in
  let filtered_df :=
    if decide (search_name f = "") then filtered_df
    else filter (fun r => match Name r with
                          | Some n => str_contains false (search_name f) n
                          | None => false end = true) filtered_df in
  if decide (search_phone f = "") then filtered_df
  else filter (fun r => match Phone r with
                        | Some p => str_contains true (search_phone f) p
                        | None => false end = true) filtered_df.

(** What [st.data_editor(filtered_df, num_rows="dynamic")] can return:
    rows may be edited, deleted or added, the [Phone] column is disabled,
    so every row keeps the phone of a displayed row or, when added, has
    none. *)
Definition editor_output (filtered_df edited_df : list view_row) : Prop :=
  Forall (fun r => Phone r = None \/ Phone r ∈ Phone <$> filtered_df) edited_df.

(** The user's interaction that triggers a run of [main]. *)
Inductive action :=
| AView                                            (** no button: dashboard, export, bills *)
| AUpload (df_receipts_raw : list receipt)         (** a POS file in the uploader *)
| AClear                                           (** "Clear Saved Data" *)
| ASave (f : view_filter) (edited_df : list view_row) (now : string)  (** "Save All Changes" *)
| ARefresh.                                        (** "Refresh Data" *)

(** The sidebar's statistics: [len(st.session_state.customer_payment_data)]
    is evaluated whenever receipts are loaded. *)
Definition sidebar_stats : M unit :=
  s <- st_get;;
  match df_receipts s, customer_payment_data s with
  | Some _, None => st_lift (Raise TypeError)
  | _, _ => st_ret tt
  end.

(** From [# Main content] to the end of the payment-tracking tab. *)
Definition main_content (a : action) : M unit :=
  s <- st_get;;
  match df_receipts s with
  | None => st_ret tt
  | Some _ =>
      (match customer_payment_data s with
       | None => v <- initialize_customer_payment_data;; st_modify (set_view v)
       | Some _ => st_ret tt
       end);;;
      match a with
      | ASave _ edited_df now => save_all_changes edited_df now
      | ARefresh => v <- initialize_customer_payment_data;; st_modify (set_view v)
      | _ => st_ret tt
      end
  end.

(** One run of [main] (after the password check); [st.rerun()] ends a run. *)
Definition main (a : action) : M unit :=
  load_payment_tracker;;;
  sidebar_stats;;;
  match a with
  | AUpload df_receipts_raw => st_try (import_receipts df_receipts_raw) (fun _ => main_content a)
  | AClear =>
      s <- st_get;;
      match df_receipts s with
      | Some _ => st_modify (set_receipts None);;; st_modify (set_view None)
      | None => main_content a
      end
  | _ => main_content a
  end.

Definition run (a : action) (s : session) : session := snd (main a s).

(** The actions a user can take in session [s]. *)
Definition valid_action (s : session) (a : action) : Prop :=
  match a with
  | ASave f edited_df _ =>
      forall v, customer_payment_data s = Some v -> editor_output (filter_view f v) edited_df
  | _ => True
  end.

Inductive run_steps : session -> list action -> session -> Prop :=
| rs_nil s : run_steps s [] s
| rs_cons s a acts s' :
    valid_action s a -> run_steps (run a s) acts s' -> run_steps s (a :: acts) s'.

(** The actions that rebuild the view from the receipts and the tracker. *)
Definition recomputes (a : action) : bool :=
  match a with AUpload _ | ARefresh => true | _ => false end.

Definition view_phones (s : session) : list (option string) :=
  match customer_payment_data s with Some v => Phone <$> v | None => [] end.

(** The tracker as persisted in [payment_tracker.json]. *)
Definition file_entries (s : session) : tracker :=
  match tracker_file s with Some (JValid t) => t | _ => ∅ end.

(* A fresh session, after an upload, a save and a refresh. *)
Definition fresh : session :=
  {| df_receipts := None; payment_tracker := ∅; customer_payment_data := None;
     tracker_file := None |}.

Definition set_balances (prev adv : Z) (r : view_row) : view_row :=
  {| Name := Name r; Phone := Phone r; Address := Address r; Amount_Due := Amount_Due r;
     Previous_Balance := prev; Advance_Given := Advance_Given r; Advance_Amount := adv;
     Payment_Status := Payment_Status r; Amount_Paid := Amount_Paid r;
     Remaining_Amount := Remaining_Amount r; Payment_Mode := Payment_Mode r;
     Received_On := Received_On r; Cash_Collected := Cash_Collected r;
     Cash_Deposited := Cash_Deposited r; Remarks := Remarks r; Advance_CF := Advance_CF r |}.

Definition all_filter : view_filter :=
  {| filter_status := ["All"]; search_name := ""; search_phone := "" |}.

Definition s_uploaded : session :=
  run (AUpload [rc "Asha" (CStr "919876543210") 10000; rc "Asha" (CInt 9876543210) 5000]) fresh.

Definition view_of (s : session) : list view_row := default [] (customer_payment_data s).

(* ------------------------------------------------------------------ *)
(** ** Auxiliary definitions for the proofs *)

(** Computations that leave an observation of the session unchanged. *)
Definition keeps {A T} (obs : session -> T) (m : M A) : Prop :=
  forall s, obs (snd (m s)) = obs s.

Definition is_save (a : action) : bool :=
  match a with ASave _ _ _ => true | _ => false end.

(** The key of a receipt: its normalized phone, [None] when missing or
    when the normalization raises. *)
Definition phone_key (r : receipt) : option string :=
  match normalize_phone (CustomerNumber r) with Ok k => k | Raise _ => None end.

Definition keyed_of (df : list receipt) : list (string * receipt) :=
  omap (fun r => (fun k => (k, r)) <$> phone_key r) df.

Definition summary_of (keyed : list (string * receipt)) (k : string) : summary_row :=
  let grp := group_of keyed k in
  {| cs_NormalizedPhone := k;
     cs_CustomerName := first_some (CustomerName <$> grp);
     cs_CustomerNumber := first_cell (CustomerNumber <$> grp);
     cs_Total := sum_list (Total <$> grp) |}.

(** The tracker in memory after [load_payment_tracker]. *)
Definition loaded_tracker (s : session) : tracker :=
  match tracker_file s with
  | Some (JValid t) => t
  | Some JCorrupt => ∅
  | None => payment_tracker s
  end.



Definition edited_row (name phone : option string) (due paid : Z) (status remarks : string) : view_row :=
  {| Name := name; Phone := phone; Address := ""; Amount_Due := due; Previous_Balance := 0;
     Advance_Given := "No"; Advance_Amount := 0; Payment_Status := status; Amount_Paid := paid;
     Remaining_Amount := due; Payment_Mode := "Cash"; Received_On := ""; Cash_Collected := false;
     Cash_Deposited := false; Remarks := remarks; Advance_CF := 0 |}.


(** The view does not show [Some p]; a view that is gone goes with the
    receipts. *)
Definition view_excludes (p : string) (s : session) : Prop :=
  match customer_payment_data s with
  | None => df_receipts s = None
  | Some v => Some p ∉ Phone <$> v
  end.

(** The step after [str(int(float(phone)))]. *)
Definition strip91 (phone_str : string) : string :=
  if String.prefix "91" phone_str && (String.length phone_str =? 12)%nat
  then String.substring 2 (String.length phone_str - 2) phone_str
  else phone_str.

(* Receipts, summaries and sessions used to instantiate the properties. *)
Definition receipts_of (s : session) : list receipt := default [] (df_receipts s).

Definition summary_of_receipts (df : list receipt) : list summary_row :=
  match customer_summary df with Ok l => l | Raise _ => [] end.

Definition s_two : session :=
  run (AUpload [rc "Asha" (CStr "919876543210") 10000; rc "Ravi" (CStr "9123456789") 500]) fresh.

Definition asha_filter : view_filter :=
  {| filter_status := ["All"]; search_name := "asha"; search_phone := "" |}.

(** The rows left in the editor when the view of [s_two] is filtered by
    name. *)
Definition asha_edited : list view_row :=
  Eval vm_compute in filter_view asha_filter (view_of s_two).

Definition unnamed_receipt (phone : cell) (total : Z) : receipt :=
  {| ReceiptId := "r0"; CustomerName := None; CustomerNumber := phone;
     Total := total; PaymentMode := "Credit" |}.

(* ------------------------------------------------------------------ *)
(** ** The password gate: [check_password] *)

(** The password keys of [st.session_state]; [None] stands for an absent
    key. *)
Record pw_state := {
  password_correct : option bool;
  password : option string
}.

Definition pw_fresh : pw_state := {| password_correct := None; password := None |}.

(** [password_entered]; [secret] is [st.secrets]'s ["password"] entry when
    there is one.  [None]: the ["password"] key is absent and the lookup
    raises [KeyError]. *)
Definition password_entered (secret : option string) (s : pw_state) : option pw_state :=
  match password s with
  | None => None
  | Some p =>
      if String.eqb p (default "lalita2025" secret)
      then Some {| password_correct := Some true; password := None |}
      else Some {| password_correct := Some false; password := Some p |}
  end.

(** [check_password]: [False] while ["password_correct"] is absent or
    false. *)
Definition check_password (s : pw_state) : bool :=
  match password_correct s with
  | None => false
  | Some b => b
  end.

(** One run of the script as the gate sees it.  The text input
    ([key="password"]) is rendered only by a run in which [check_password]
    returned [False]; a value [p] typed into it is stored under its key and
    [password_entered] runs as its [on_change] callback, before the
    script. *)
Definition pw_run (secret : option string) (typed : option string) (s : pw_state) : pw_state :=
  if check_password s then s else
  match typed with
  | None => s
  | Some p =>
      match password_entered secret {| password_correct := password_correct s; password := Some p |} with
      | Some s' => s'
      | None => s
      end
  end.

(** The runs of a new session, each with the value typed before it, if
    any. *)
Definition pw_runs (secret : option string) (entries : list (option string)) : pw_state :=
  foldl (fun s t => pw_run secret t s) pw_fresh entries.

(* ------------------------------------------------------------------ *)
(** ** Saved data: [save_data], [load_saved_data], [init_session_state] *)

(** A row of [df_items] (the columns the code reads). *)
Record item := {
  ItemReceiptId : string;
  EntryType : string
}.

(** A pickle file: one that [pd.read_pickle] reads back, or one it
    rejects. *)
Inductive pickle (A : Type) :=
| Pickled (a : A)
| Unreadable.
Arguments Pickled {A} a.
Arguments Unreadable {A}.

(** [saved_receipts.pkl], [saved_items.pkl] and [saved_logo.bin];
    [None]: the file does not exist. *)
Record saved_files := {
  saved_receipts : option (pickle (list receipt));
  saved_items : option (pickle (list item));
  saved_logo : option (list Byte.byte)
}.

(** The keys of [st.session_state] that the files mirror ([None] also
    stands for a key that [init_session_state] has just set to [None]). *)
Record saved_state := {
  sd_df_receipts : option (list receipt);
  sd_df_items : option (list item);
  sd_logo_bytes : option (list Byte.byte)
}.

(** [save_data]; each write is taken to succeed. *)
Definition save_data (s : saved_state) (fs : saved_files) : saved_files :=
  let fs := match sd_df_receipts s with
            | Some d => {| saved_receipts := Some (Pickled d); saved_items := saved_items fs;
                           saved_logo := saved_logo fs |}
            | None => fs
            end in
  let fs := match sd_df_items s with
            | Some d => {| saved_receipts := saved_receipts fs; saved_items := Some (Pickled d);
                           saved_logo := saved_logo fs |}
            | None => fs
            end in
  match sd_logo_bytes s with
  | Some b => {| saved_receipts := saved_receipts fs; saved_items := saved_items fs;
                 saved_logo := Some b |}
  | None => fs
  end.

(** [load_saved_data]: the first file that cannot be read ends the [try]
    block silently, keeping what was loaded before it. *)
Definition load_saved_data (fs : saved_files) (s : saved_state) : saved_state :=
  match saved_receipts fs with
  | Some Unreadable => s
  | r =>
      let s := match r with
               | Some (Pickled d) => {| sd_df_receipts := Some d; sd_df_items := sd_df_items s;
                                        sd_logo_bytes := sd_logo_bytes s |}
               | _ => s
               end in
      match saved_items fs with
      | Some Unreadable => s
      | i =>
          let s := match i with
                   | Some (Pickled d) => {| sd_df_receipts := sd_df_receipts s; sd_df_items := Some d;
                                            sd_logo_bytes := sd_logo_bytes s |}
                   | _ => s
                   end in
          match saved_logo fs with
          | Some b => {| sd_df_receipts := sd_df_receipts s; sd_df_items := sd_df_items s;
                         sd_logo_bytes := Some b |}
          | None => s
          end
      end
  end.

(** [init_session_state] in a new session: every key set to [None], then
    [load_saved_data]. *)
Definition init_session_state (fs : saved_files) : saved_state :=
  load_saved_data fs {| sd_df_receipts := None; sd_df_items := None; sd_logo_bytes := None |}.

(** The deletion loop of "Clear Saved Data". *)
Definition clear_saved_files (fs : saved_files) : saved_files :=
  {| saved_receipts := None; saved_items := None; saved_logo := None |}.

(* ------------------------------------------------------------------ *)
(** ** [create_dashboard] *)

(** The figures of the dashboard; the percentages are exact ratios. *)
Record dashboard := {
  total_amount : Z;
  received_amount : Z;
  remaining_amount : Z;
  paid_count : nat;
  unpaid_count : nat;
  advance_count : nat;
  partial_count : nat;
  total_customers : nat;
  upi_amount : Z;
  cash_amount : Z;
  upi_count : nat;
  cash_count : nat;
  upi_percent : Q;
  cash_percent : Q;
  recovery_percent : Q;
  paid_percent : Q;
  unpaid_percent : Q
}.

(** What [create_dashboard] shows: the upload prompt, an exception
    ([ZeroDivisionError] in [paid_count/total_customers] for a view without
    rows; [KeyError] first when that view has no columns either), or the
    figures. *)
Inductive dashboard_out :=
| DUploadPrompt
| DRaises
| DMetrics (m : dashboard).

(** [len(df[df['Payment Status'] == status])] *)
Definition count_status (status : string) (df : list view_row) : nat :=
  length (filter (fun r => Payment_Status r = status) df).

(** [df['Payment Mode'].str.contains('UPI|BHIM', case=False, na=False)] *)
Definition is_upi (r : view_row) : bool :=
  str_contains false "UPI" (Payment_Mode r) || str_contains false "BHIM" (Payment_Mode r).

(** [df['Payment Mode'].str.contains('Cash', case=False, na=False)] *)
Definition is_cash (r : view_row) : bool := str_contains false "Cash" (Payment_Mode r).

(** [a / b * 100] on numbers. *)
Definition percent (a b : Z) : Q := Qmult (Qdiv (inject_Z a) (inject_Z b)) (inject_Z 100).

Definition create_dashboard (cpd : option (list view_row)) : dashboard_out :=
  match cpd with
  | None => DUploadPrompt
  | Some df =>
      let total_amount := sum_list (Amount_Due <$> df) in
      let received_amount := sum_list (Amount_Paid <$> df) in
      let remaining_amount := sum_list (Remaining_Amount <$> df) in
      let paid_count := count_status "Settled" df in
      let unpaid_count := count_status "Due" df in
      let advance_count := count_status "Advance" df in
      let partial_count := count_status "Partial" df in
      let total_customers := length df in
      let upi_payments := filter (fun r => is_upi r = true) df in
      let cash_payments := filter (fun r => is_cash r = true) df in
      let upi_amount := sum_list (Amount_Paid <$> upi_payments) in
      let cash_amount := sum_list (Amount_Paid <$> cash_payments) in
      let upi_count := length upi_payments in
      let cash_count := length cash_payments in
      let upi_percent := if 0 <? received_amount then percent upi_amount received_amount else inject_Z 0 in
      let cash_percent := if 0 <? received_amount then percent cash_amount received_amount else inject_Z 0 in
      let recovery_percent := if 0 <? total_amount then percent received_amount total_amount else inject_Z 0 in
      if (total_customers =? 0)%nat then DRaises else
      DMetrics {| total_amount := total_amount; received_amount := received_amount;
                  remaining_amount := remaining_amount; paid_count := paid_count;
                  unpaid_count := unpaid_count; advance_count := advance_count;
                  partial_count := partial_count; total_customers := total_customers;
                  upi_amount := upi_amount; cash_amount := cash_amount;
                  upi_count := upi_count; cash_count := cash_count;
                  upi_percent := upi_percent; cash_percent := cash_percent;
                  recovery_percent := recovery_percent;
                  paid_percent := percent (Z.of_nat paid_count) (Z.of_nat total_customers);
                  unpaid_percent := percent (Z.of_nat unpaid_count) (Z.of_nat total_customers) |}
  end.

(* ------------------------------------------------------------------ *)
(** ** The bills tab and [create_bill_pdf] *)









(* ------------------------------------------------------------------ *)
(** ** Auxiliary definitions for the properties of the other functions *)

(** A receipt as the upload branch stores it: [CustomerNumber] replaced
    by its normalized phone. *)
Definition stored_receipt (r : receipt) : receipt :=
  {| ReceiptId := ReceiptId r; CustomerName := CustomerName r;
     CustomerNumber := cell_of_phone (phone_key r); Total := Total r;
     PaymentMode := PaymentMode r |}.


(** The row that [payment_row] builds for a summary row whose tracker
    entry was written from the edited row [r]. *)
Definition saved_row (r : view_row) (sr : summary_row) : view_row :=
  {| Name := cs_CustomerName sr; Phone := Some (cs_NormalizedPhone sr); Address := Address r;
     Amount_Due := cs_Total sr; Previous_Balance := Previous_Balance r;
     Advance_Given := if 0 <? Advance_Amount r then "Yes" else "No";
     Advance_Amount := Advance_Amount r; Payment_Status := Payment_Status r;
     Amount_Paid := Amount_Paid r;
     Remaining_Amount := cs_Total sr + Previous_Balance r - Advance_Amount r - Amount_Paid r;
     Payment_Mode := Payment_Mode r; Received_On := Received_On r;
     Cash_Collected := Cash_Collected r; Cash_Deposited := Cash_Deposited r;
     Remarks := Remarks r; Advance_CF := Advance_CF r |}.

(** The four statuses that the dashboard counts. *)
Definition known_status (r : view_row) : Prop :=
  Payment_Status r = "Settled" \/ Payment_Status r = "Due" \/
  Payment_Status r = "Advance" \/ Payment_Status r = "Partial".

(** [st.session_state] in a new browser session once [init_session_state]
    has run: [payment_tracker = {}], [customer_payment_data = None] and
    [df_receipts] as loaded from the saved files; [file] is the tracker
    file on disk. *)
Definition new_session (fs : saved_files) (file : option json_file) : session :=
  {| df_receipts := sd_df_receipts (init_session_state fs); payment_tracker := ∅;
     customer_payment_data := None; tracker_file := file |}.


(* Concrete values for the examples below. *)
Definition s_two_c : session := Eval vm_compute in s_two.

Definition d_two : list receipt := Eval vm_compute in receipts_of s_two.

Definition summ_two : list summary_row := Eval vm_compute in summary_of_receipts (receipts_of s_two).


Definition asha_paid : view_row := edited_row (Some "Asha") (Some "9876543210") 10000 4000 "Partial" "part".

Definition odd_view : list view_row :=
  [edited_row (Some "Asha") (Some "9876543210") 10000 0 "Cancelled" "";
   edited_row (Some "Ravi") (Some "9123456789") 500 500 "Settled" ""].

Definition odd_metrics : dashboard :=
  Eval vm_compute in
    match create_dashboard (Some odd_view) with
    | DMetrics m => m
    | _ => {| total_amount := 0; received_amount := 0; remaining_amount := 0; paid_count := 0;
              unpaid_count := 0; advance_count := 0; partial_count := 0; total_customers := 0;
              upi_amount := 0; cash_amount := 0; upi_count := 0; cash_count := 0;
              upi_percent := 0; cash_percent := 0; recovery_percent := 0; paid_percent := 0;
              unpaid_percent := 0 |}
    end.



(* ================================================================== *)
(** * Properties *)

(** Examples: [normalize_phone] on single inputs, the summary of a few
    receipts, and an upload, save and refresh. *)

Example normalize_ex1 : normalize_phone (CStr "917234002022") = Ok (Some "7234002022").
Proof. vm_compute. reflexivity. Qed.
Example normalize_ex2 : normalize_phone (CStr "7234002022") = Ok (Some "7234002022").
Proof. vm_compute. reflexivity. Qed.
Example normalize_ex3 : normalize_phone (CStr " 9198765432.0 ") = Ok (Some "9198765432").
Proof. vm_compute. reflexivity. Qed.
Example normalize_ex4 : normalize_phone (CStr "09876543210") = Ok (Some "9876543210").
Proof. vm_compute. reflexivity. Qed.
Example normalize_ex5 : normalize_phone (CStr "abc") = Raise ValueError.
Proof. vm_compute. reflexivity. Qed.
Example normalize_ex6 : normalize_phone (CStr "-12.7e0") = Ok (Some "-12").
Proof. vm_compute. reflexivity. Qed.
Example normalize_ex7 : normalize_phone (CInt 919876543210) = Ok (Some "9876543210").
Proof. vm_compute. reflexivity. Qed.
Example normalize_ex8 : normalize_phone (CStr "1_000.9") = Ok (Some "1000").
Proof. vm_compute. reflexivity. Qed.
Example normalize_ex9 : normalize_phone (CStr "0.1") = Ok (Some "0").
Proof. vm_compute. reflexivity. Qed.
Example normalize_ex10 : normalize_phone (CStr "1e400") = Raise OverflowError.
Proof. vm_compute. reflexivity. Qed.

Example summary_ex1 :
  match customer_summary [rc "A" (CStr "919876543210") 10000; rc "B" (CStr "5") 1;
                          rc "C" (CStr "9876543210") 5000; rc "D" CNone 7] with
  | Ok l => Some ((fun r => (cs_NormalizedPhone r, cs_CustomerName r, cs_Total r)) <$> l)
  | Raise _ => None
  end = Some [("5", Some "B", 1); ("9876543210", Some "A", 15000)].
Proof. vm_compute. reflexivity. Qed.

Example scenario_ex :
  let s1 := run (ASave all_filter (set_balances 2000 1000 <$> view_of s_uploaded) "t") s_uploaded in
  let s2 := run ARefresh s1 in
  (fun r => (Phone r, Amount_Due r, Remaining_Amount r)) <$> view_of s2
  = [(Some "9876543210", 15000, 16000)].
Proof. vm_compute. reflexivity. Qed.

Lemma initialize_state (s : session) :
  snd (initialize_customer_payment_data s) = s.
Proof.
  unfold initialize_customer_payment_data, st_bind, st_get, st_lift, st_ret; simpl.
  destruct (df_receipts s) as [df|]; [|reflexivity].
  destruct (customer_summary df); reflexivity.
Qed.

Lemma initialize_ok (s : session) (df : list receipt) (summ : list summary_row) :
  df_receipts s = Some df -> customer_summary df = Ok summ ->
  initialize_customer_payment_data s
  = (Ok (Some (payment_row (payment_tracker s) <$> summ)), s).
Proof.
  intros Hd Hs.
  unfold initialize_customer_payment_data, st_bind, st_get, st_lift, st_ret; simpl.
  rewrite Hd, Hs. reflexivity.
Qed.

Lemma initialize_rows (s s' : session) (rows : list view_row) :
  initialize_customer_payment_data s = (Ok (Some rows), s') ->
  exists df summ, df_receipts s = Some df /\ customer_summary df = Ok summ /\
    rows = payment_row (payment_tracker s) <$> summ /\ s' = s.
Proof.
  unfold initialize_customer_payment_data, st_bind, st_get, st_lift, st_ret; simpl.
  destruct (df_receipts s) as [df|]; [|discriminate].
  destruct (customer_summary df) as [summ|e] eqn:Hs; intros H; inversion H; subst.
  eauto 6.
Qed.

(** C1. In every row of the view built by [initialize_customer_payment_data],
    the previous balance, the advance and the amount paid are the tracker's
    values for the row's phone, 0 when the key is missing, and
    [Remaining Amount = Amount Due + Previous Balance - Advance Amount -
    Amount Paid]; in particular a customer owing 150.00 whose previous
    balance was saved as 20.00 and advance as 10.00, with nothing paid,
    reconciles to 160.00. *)
Theorem C1_remaining_amount :
  (forall (s s' : session) (rows : list view_row) (r : view_row),
     initialize_customer_payment_data s = (Ok (Some rows), s') -> r ∈ rows ->
     let info := default empty_entry (payment_tracker s !! Phone r) in
     Previous_Balance r = default 0 (previous_balance info) /\
     Advance_Amount r = default 0 (advance_amount info) /\
     Amount_Paid r = default 0 (amount_paid info) /\
     Remaining_Amount r = Amount_Due r + Previous_Balance r - Advance_Amount r - Amount_Paid r)
  /\
  (let s1 := run (ASave all_filter (set_balances 2000 1000 <$> view_of s_uploaded) "t") s_uploaded in
   let s2 := run ARefresh s1 in
   (fun r => (Amount_Due r, Previous_Balance r, Advance_Amount r, Amount_Paid r, Remaining_Amount r))
     <$> view_of s2 = [(15000, 2000, 1000, 0, 16000)]).
Proof.
  split.
  - intros s s' rows r Hi Hr.
    destruct (initialize_rows s s' rows Hi) as (df & summ & _ & _ & -> & _).
    apply list_elem_of_fmap in Hr as (sr & -> & _).
    cbn. repeat split.
  - vm_compute. reflexivity.
Qed.

Create HintDb keeps_db.

Lemma keeps_ret {A T} (obs : session -> T) (a : A) : keeps obs (st_ret a).
Proof. intros s; reflexivity. Qed.
Lemma keeps_get {T} (obs : session -> T) : keeps obs st_get.
Proof. intros s; reflexivity. Qed.
Lemma keeps_lift {A T} (obs : session -> T) (r : res A) : keeps obs (st_lift r).
Proof. intros s; reflexivity. Qed.
Lemma keeps_bind {A B T} (obs : session -> T) (m : M A) (k : A -> M B) :
  keeps obs m -> (forall a, keeps obs (k a)) -> keeps obs (st_bind m k).
Proof.
  intros Hm Hk s. unfold st_bind.
  destruct (m s) as [[a|e] s'] eqn:E; cbn; rewrite <- (Hm s), E; [apply Hk|reflexivity].
Qed.
Lemma keeps_try {A T} (obs : session -> T) (m : M A) (h : py_exc -> M A) :
  keeps obs m -> (forall e, keeps obs (h e)) -> keeps obs (st_try m h).
Proof.
  intros Hm Hh s. unfold st_try.
  destruct (m s) as [[a|e] s'] eqn:E; cbn; rewrite <- (Hm s), E; [reflexivity|apply Hh].
Qed.
Lemma keeps_modify {T} (obs : session -> T) (f : session -> session) :
  (forall s, obs (f s) = obs s) -> keeps obs (st_modify f).
Proof. intros H s; apply H. Qed.

Lemma file_set_tracker t s : tracker_file (set_tracker t s) = tracker_file s.
Proof. reflexivity. Qed.
Lemma file_set_view v s : tracker_file (set_view v s) = tracker_file s.
Proof. reflexivity. Qed.
Lemma file_set_receipts d s : tracker_file (set_receipts d s) = tracker_file s.
Proof. reflexivity. Qed.

#[export] Hint Resolve keeps_ret keeps_get keeps_lift keeps_bind keeps_try keeps_modify
  file_set_tracker file_set_view file_set_receipts : keeps_db.

Lemma keeps_initialize {T} (obs : session -> T) : keeps obs initialize_customer_payment_data.
Proof. intros s. rewrite initialize_state. reflexivity. Qed.
#[export] Hint Resolve keeps_initialize : keeps_db.

Lemma keeps_file_load : keeps tracker_file load_payment_tracker.
Proof.
  unfold load_payment_tracker.
  apply keeps_bind; [auto with keeps_db|]. intros s.
  destruct (tracker_file s) as [[t|]|]; auto with keeps_db.
Qed.
Lemma keeps_file_sidebar : keeps tracker_file sidebar_stats.
Proof.
  unfold sidebar_stats. apply keeps_bind; [auto with keeps_db|]. intros s.
  destruct (df_receipts s), (customer_payment_data s); auto with keeps_db.
Qed.
Lemma keeps_file_import raw : keeps tracker_file (import_receipts raw).
Proof. unfold import_receipts. repeat (apply keeps_bind; [auto with keeps_db|intros]); auto with keeps_db. Qed.
#[export] Hint Resolve keeps_file_load keeps_file_sidebar keeps_file_import : keeps_db.

Lemma keeps_file_content (a : action) : is_save a = false -> keeps tracker_file (main_content a).
Proof.
  intros Ha. unfold main_content. apply keeps_bind; [auto with keeps_db|]. intros s.
  destruct (df_receipts s); [|auto with keeps_db].
  apply keeps_bind.
  - destruct (customer_payment_data s); auto with keeps_db.
  - intros _. destruct a; try discriminate; auto with keeps_db.
Qed.

(** Only "Save All Changes" writes the tracker file. *)
Lemma run_keeps_file (a : action) (s : session) :
  is_save a = false -> tracker_file (run a s) = tracker_file s.
Proof.
  intros Ha. unfold run, main.
  apply keeps_bind; [auto with keeps_db|intros _].
  apply keeps_bind; [auto with keeps_db|intros _].
  destruct a; try discriminate; try apply keeps_file_content; auto.
  - apply keeps_try; [auto with keeps_db|intros; apply keeps_file_content; auto].
  - apply keeps_bind; [auto with keeps_db|intros s'].
    destruct (df_receipts s'); [|apply keeps_file_content; auto].
    apply keeps_bind; auto with keeps_db.
Qed.

(** C7. Building the view never writes the session or the tracker file,
    and raises only when normalizing a receipt's phone does; a summary row
    whose phone has no tracker entry gets a view row with the tracked
    amounts 0, status [Due], empty texts and unchecked boxes (so its
    remaining amount is its amount due).  The runs that rebuild the view
    ("Refresh Data", or any run with no button) leave the tracker file as
    it was. *)
Theorem C7_default_row :
  forall (s : session) (df : list receipt) (summ : list summary_row),
    df_receipts s = Some df -> customer_summary df = Ok summ ->
    initialize_customer_payment_data s
      = (Ok (Some (payment_row (payment_tracker s) <$> summ)), s) /\
    (forall sr, sr ∈ summ -> payment_tracker s !! Some (cs_NormalizedPhone sr) = None ->
       payment_row (payment_tracker s) sr =
       {| Name := cs_CustomerName sr; Phone := Some (cs_NormalizedPhone sr); Address := "";
          Amount_Due := cs_Total sr; Previous_Balance := 0; Advance_Given := "No";
          Advance_Amount := 0; Payment_Status := "Due"; Amount_Paid := 0;
          Remaining_Amount := cs_Total sr; Payment_Mode := ""; Received_On := "";
          Cash_Collected := false; Cash_Deposited := false; Remarks := "";
          Advance_CF := 0 |}) /\
    (forall s0 : session, snd (initialize_customer_payment_data s0) = s0) /\
    tracker_file (run ARefresh s) = tracker_file s /\
    tracker_file (run AView s) = tracker_file s.
Proof.
  intros s df summ Hd Hs.
  split; [exact (initialize_ok s df summ Hd Hs)|].
  split.
  { intros sr _ Hn. unfold payment_row. rewrite Hn. cbn.
    rewrite Z.add_0_r, !Z.sub_0_r. reflexivity. }
  split; [exact initialize_state|].
  split; apply run_keeps_file; reflexivity.
Qed.

(* ------------------------------------------------------------------ *)
(** ** The grouping step *)

Lemma mapM_res_cons {A B} (f : A -> res B) (x : A) (l : list A) :
  mapM f (x :: l) = match f x with
                    | Ok y => match mapM f l with Ok k => Ok (y :: k) | Raise e => Raise e end
                    | Raise e => Raise e
                    end.
Proof. reflexivity. Qed.

Lemma mapM_res_ok {A B} (f : A -> res B) (l : list A) (ks : list B) :
  mapM f l = Ok ks -> Forall2 (fun x y => f x = Ok y) l ks.
Proof.
  revert ks; induction l as [|x l IH]; intros ks; cbn.
  - intros H; inversion H; constructor.
  - unfold mbind, res_bind, mret, res_ret.
    destruct (f x) as [y|e] eqn:Ef; [|discriminate].
    destruct (mapM f l) as [k|e] eqn:Em; [|discriminate].
    intros H; inversion H; subst. constructor; auto.
Qed.

Lemma mapM_res_total {A B} (f : A -> res B) (l : list A) :
  (forall x, x ∈ l -> exists y, f x = Ok y) -> exists ks, mapM f l = Ok ks.
Proof.
  induction l as [|x l IH]; intros H.
  - exists []. reflexivity.
  - destruct (H x) as [y Hy]; [left|].
    destruct IH as [ks Hks]; [intros z Hz; apply H; right; exact Hz|].
    rewrite mapM_res_cons, Hy, Hks. eauto.
Qed.

Lemma mapM_res_raise {A B} (f : A -> res B) (l : list A) (x : A) (e : py_exc) :
  x ∈ l -> f x = Raise e -> exists e', mapM f l = Raise e'.
Proof.
  induction l as [|y l IH]; intros Hx Hf; [inversion Hx|].
  rewrite mapM_res_cons.
  apply elem_of_cons in Hx as [->|Hx].
  - rewrite Hf. eauto.
  - destruct (f y); [|eauto].
    destruct (IH Hx Hf) as [e' ->]. eauto.
Qed.

Lemma keyed_rows_spec (df : list receipt) (ks : list (option string)) :
  Forall2 (fun r k => normalize_phone (CustomerNumber r) = Ok k) df ks ->
  keyed_rows ks df = keyed_of df.
Proof.
  induction 1 as [|r k df ks Hr _ IH]; [reflexivity|].
  unfold keyed_rows, keyed_of in *. cbn.
  unfold phone_key at 1. rewrite Hr. rewrite IH. reflexivity.
Qed.

Lemma customer_summary_spec (df : list receipt) (out : list summary_row) :
  customer_summary df = Ok out ->
  out = summary_of (keyed_of df) <$> sort_keys (remove_dups (fst <$> keyed_of df)).
Proof.
  unfold customer_summary. cbn. unfold mbind, res_bind.
  destruct (mapM _ df) as [ks|e] eqn:Em; [|discriminate].
  intros H; inversion H; subst.
  rewrite (keyed_rows_spec df ks (mapM_res_ok _ _ _ Em)). reflexivity.
Qed.

Lemma customer_summary_ok (df : list receipt) :
  (exists out, customer_summary df = Ok out) <->
  (forall r, r ∈ df -> exists o, normalize_phone (CustomerNumber r) = Ok o).
Proof.
  split.
  - intros [out Hout] r Hr. unfold customer_summary in Hout.
    destruct (mapM _ df) as [ks|e] eqn:Em; [|discriminate].
    apply mapM_res_ok in Em.
    destruct (list_elem_of_lookup_1 _ _ Hr) as [i Hi].
    destruct (Forall2_lookup_l _ _ _ _ _ Em Hi) as (o & _ & Ho). eauto.
  - intros H. destruct (mapM_res_total (fun r => normalize_phone (CustomerNumber r)) df H)
      as [ks Hks]. unfold customer_summary. rewrite Hks. eauto.
Qed.

Lemma insert_key_perm (k : string) (l : list string) : insert_key k l ≡ₚ k :: l.
Proof.
  induction l as [|x l IH]; cbn; [reflexivity|].
  destruct (String.leb k x); [reflexivity|].
  rewrite IH. apply Permutation_swap.
Qed.

Lemma sort_keys_perm (l : list string) : sort_keys l ≡ₚ l.
Proof.
  induction l as [|x l IH]; cbn; [reflexivity|].
  rewrite insert_key_perm, IH. reflexivity.
Qed.

Lemma group_of_keyed (df : list receipt) (k : string) :
  group_of (keyed_of df) k = filter (fun r => phone_key r = Some k) df.
Proof.
  induction df as [|r df IH]; [reflexivity|].
  unfold group_of, keyed_of in *. cbn.
  destruct (phone_key r) as [k'|] eqn:Ek; cbn; rewrite ?filter_cons; cbn;
    repeat case_decide; cbn; subst; try congruence; try (f_equal; exact IH); exact IH.
Qed.

Lemma keyed_of_keys (df : list receipt) (k : string) :
  k ∈ fst <$> keyed_of df <-> exists r, r ∈ df /\ phone_key r = Some k.
Proof.
  unfold keyed_of. rewrite list_elem_of_fmap. split.
  - intros ([k' r] & -> & Hin). apply list_elem_of_omap in Hin as (r' & Hr' & Hf).
    destruct (phone_key r') eqn:E; inversion Hf; subst. eauto.
  - intros (r & Hr & Hk). exists (k, r). split; [reflexivity|].
    apply list_elem_of_omap. exists r. rewrite Hk. auto.
Qed.








Lemma sort_keys_NoDup (l : list string) : NoDup l -> NoDup (sort_keys l).
Proof. intros H. rewrite sort_keys_perm. exact H. Qed.

Lemma sort_keys_elem (l : list string) (k : string) : k ∈ sort_keys l <-> k ∈ l.
Proof. rewrite sort_keys_perm. reflexivity. Qed.

Lemma summary_phones (keyed : list (string * receipt)) (K : list string) :
  cs_NormalizedPhone <$> (summary_of keyed <$> K) = K.
Proof. induction K as [|k K IH]; cbn; [reflexivity|]. rewrite IH. reflexivity. Qed.

Lemma phone_key_ok (r : receipt) (o : option string) :
  normalize_phone (CustomerNumber r) = Ok o -> phone_key r = o.
Proof. unfold phone_key. intros ->. reflexivity. Qed.


(** C6. On Credit receipts none of whose phones makes [normalize_phone]
    raise, the grouping yields exactly one row per normalized phone that
    occurs; a row's amount due is the sum of the totals of the receipts
    whose phone normalizes to its key, and its name is the first non-null
    customer name among those receipts in input order ([GroupBy.first]). *)
Theorem C6_grouping (df : list receipt) :
  (forall r, r ∈ df -> exists o, normalize_phone (CustomerNumber r) = Ok o) ->
  exists out, customer_summary df = Ok out /\
    NoDup (cs_NormalizedPhone <$> out) /\
    (forall k, k ∈ cs_NormalizedPhone <$> out <->
               exists r, r ∈ df /\ normalize_phone (CustomerNumber r) = Ok (Some k)) /\
    (forall sr, sr ∈ out ->
       let grp := filter (fun r => phone_key r = Some (cs_NormalizedPhone sr)) df in
       cs_Total sr = sum_list (Total <$> grp) /\
       cs_CustomerName sr = first_some (CustomerName <$> grp)).
Proof.
  intros H. pose proof H as Hok. apply customer_summary_ok in H as [out Hout].
  exists out. split; [exact Hout|].
  pose proof (customer_summary_spec df out Hout) as ->.
  rewrite summary_phones. split; [|split].
  - apply sort_keys_NoDup, NoDup_remove_dups.
  - intros k. rewrite sort_keys_elem, elem_of_remove_dups, keyed_of_keys.
    split; intros (r & Hr & Hk); exists r; split; auto.
    + destruct (Hok r Hr) as [o Ho]. rewrite (phone_key_ok r o Ho) in Hk. subst. exact Ho.
    + exact (phone_key_ok r _ Hk).
  - intros sr Hsr. apply list_elem_of_fmap in Hsr as (k & -> & _).
    cbn. rewrite group_of_keyed. split; reflexivity.
Qed.

(* ------------------------------------------------------------------ *)
(** ** "Save All Changes" *)

Lemma run_save (s : session) (d : list receipt) (v : list view_row)
      (f : view_filter) (e : list view_row) (now : string) :
  df_receipts s = Some d -> customer_payment_data s = Some v ->
  run (ASave f e now) s =
  {| df_receipts := Some d;
     payment_tracker := update_tracker e now (loaded_tracker s);
     customer_payment_data := Some e;
     tracker_file := Some (JValid (update_tracker e now (loaded_tracker s))) |}.
Proof.
  intros Hd Hv.
  unfold run, main, load_payment_tracker, sidebar_stats, main_content, save_all_changes,
    save_payment_tracker, loaded_tracker, st_bind, st_get, st_modify, st_ret, st_lift,
    set_tracker, set_view, set_file, set_receipts.
  destruct (tracker_file s) as [[t|]|]; cbn; rewrite Hd, Hv; cbn;
    try rewrite Hd; try rewrite Hv; cbn; try rewrite Hd; reflexivity.
Qed.

Lemma update_tracker_frame (e : list view_row) (now : string) (t : tracker) (k : option string) :
  (forall r, r ∈ e -> Phone r ≠ k) -> update_tracker e now t !! k = t !! k.
Proof.
  unfold update_tracker. revert t.
  induction e as [|r e IH]; intros t H; [reflexivity|]. cbn.
  rewrite IH by (intros r' Hr'; apply H; right; exact Hr').
  apply lookup_insert_ne. apply H. left.
Qed.

Lemma update_tracker_last (pre post : list view_row) (r : view_row) (now : string) (t : tracker) :
  Forall (fun r' => Phone r' ≠ Phone r) post ->
  update_tracker (pre ++ r :: post) now t !! Phone r = Some (entry_of_row r now).
Proof.
  intros Hpost.
  assert (update_tracker (pre ++ r :: post) now t
          = update_tracker post now (<[Phone r:=entry_of_row r now]> (update_tracker pre now t)))
    as -> by (unfold update_tracker; rewrite foldl_app; reflexivity).
  rewrite update_tracker_frame.
  - apply lookup_insert_eq.
  - intros r' Hr'. rewrite Forall_forall in Hpost. apply Hpost. exact Hr'.
Qed.


Lemma file_entries_loaded (s : session) :
  tracker_file s ≠ None -> file_entries s = loaded_tracker s.
Proof. unfold file_entries, loaded_tracker. destruct (tracker_file s) as [[t|]|]; congruence. Qed.

Lemma file_after_save (s : session) (d : list receipt) (v : list view_row)
      (f : view_filter) (e : list view_row) (now : string) :
  df_receipts s = Some d -> customer_payment_data s = Some v ->
  file_entries (run (ASave f e now) s) = update_tracker e now (loaded_tracker s) /\
  payment_tracker (run (ASave f e now) s) = update_tracker e now (loaded_tracker s).
Proof. intros Hd Hv. rewrite (run_save s d v f e now Hd Hv). split; reflexivity. Qed.





Lemma filter_view_sub (f : view_filter) (v : list view_row) (r : view_row) :
  r ∈ filter_view f v -> r ∈ v.
Proof.
  unfold filter_view. repeat case_decide; rewrite ?list_elem_of_filter; tauto.
Qed.

Lemma filter_view_phones (f : view_filter) (v : list view_row) (p : option string) :
  p ∉ Phone <$> v -> p ∉ Phone <$> filter_view f v.
Proof.
  intros Hp Hin. apply list_elem_of_fmap in Hin as (r & -> & Hr).
  apply Hp, list_elem_of_fmap_2, (filter_view_sub f v r Hr).
Qed.

(** A phone the editor was not shown cannot come out of it. *)
Lemma editor_output_phones (filtered e : list view_row) (p : string) :
  editor_output filtered e -> Some p ∉ Phone <$> filtered -> Some p ∉ Phone <$> e.
Proof.
  unfold editor_output. rewrite Forall_forall. intros He Hp Hin.
  apply list_elem_of_fmap in Hin as (r & Hr & Hin).
  destruct (He r Hin) as [Hn | Hf]; [congruence | rewrite <- Hr in Hf; contradiction].
Qed.

Lemma view_excludes_step (p : string) (s : session) (a : action) :
  valid_action s a -> recomputes a = false -> view_excludes p s -> view_excludes p (run a s).
Proof.
  destruct s as [d t v fl]. unfold view_excludes. cbn.
  intros Ha Hr Hinv.
  destruct a as [| raw | | f e now |]; try discriminate;
  unfold run, main, load_payment_tracker, sidebar_stats, main_content,
    save_all_changes, save_payment_tracker, st_bind, st_get, st_modify, st_ret, st_lift,
    set_tracker, set_view, set_receipts, set_file;
  destruct fl as [[t'|]|]; destruct d as [d|]; destruct v as [v|]; cbn in *;
  try exact Hinv; try reflexivity; try discriminate.
  all: apply (editor_output_phones (filter_view f v)); [exact (Ha v eq_refl)|].
  all: apply filter_view_phones; exact Hinv.
Qed.

Lemma view_excludes_steps (p : string) (s s' : session) (acts : list action) :
  run_steps s acts s' -> Forall (fun a => recomputes a = false) acts ->
  view_excludes p s -> view_excludes p s'.
Proof.
  induction 1 as [s | s a acts s' Ha Hrun IH]; intros Hacts Hinv; [exact Hinv|].
  apply Forall_cons in Hacts as [Hra Hacts].
  apply IH; [exact Hacts|]. apply view_excludes_step; assumption.
Qed.

Lemma view_excludes_phones (p : string) (s : session) :
  view_excludes p s -> Some p ∉ view_phones s.
Proof.
  unfold view_excludes, view_phones. destruct (customer_payment_data s); [tauto|].
  intros _ Hin. inversion Hin.
Qed.

(** C10. "Save All Changes" replaces the view by the edited rows: a
    customer shown before the save but excluded by the active filters is
    absent from the view after it, and stays absent over any further runs
    that do not rebuild the view (no "Refresh Data", no upload), while its
    persisted tracker entry is left as the run loaded it (and, when the
    tracker file exists, as the file held it). *)
Theorem C10_filtered_save_drops (s : session) (d : list receipt) (v : list view_row)
        (f : view_filter) (e : list view_row) (now : string) (p : string)
        (acts : list action) (s' : session) :
  df_receipts s = Some d -> customer_payment_data s = Some v ->
  valid_action s (ASave f e now) ->
  Some p ∈ Phone <$> v -> Some p ∉ Phone <$> filter_view f v ->
  run_steps (run (ASave f e now) s) acts s' -> Forall (fun a => recomputes a = false) acts ->
  customer_payment_data (run (ASave f e now) s) = Some e /\
  (Some p ∉ Phone <$> e) /\
  file_entries (run (ASave f e now) s) !! Some p = loaded_tracker s !! Some p /\
  (tracker_file s ≠ None -> file_entries (run (ASave f e now) s) !! Some p = file_entries s !! Some p) /\
  Some p ∉ view_phones s'.
Proof.
  intros Hd Hv Ha _ Hp Hsteps Hacts.
  assert (He : Some p ∉ Phone <$> e)
    by exact (editor_output_phones (filter_view f v) e p (Ha v Hv) Hp).
  assert (Hfile : file_entries (run (ASave f e now) s) !! Some p = loaded_tracker s !! Some p).
  { destruct (file_after_save s d v f e now Hd Hv) as [-> _].
    apply update_tracker_frame. intros r Hr Heq. apply He.
    rewrite <- Heq. apply list_elem_of_fmap_2, Hr. }
  split; [rewrite (run_save s d v f e now Hd Hv); reflexivity|].
  split; [exact He|]. split; [exact Hfile|]. split.
  - intros Hf. rewrite Hfile, (file_entries_loaded s Hf). reflexivity.
  - apply view_excludes_phones, (view_excludes_steps p _ _ acts Hsteps Hacts).
    unfold view_excludes. rewrite (run_save s d v f e now Hd Hv). exact He.
Qed.

(* ------------------------------------------------------------------ *)
(** ** [normalize_phone] on digit strings *)

Lemma normalize_phone_eq (c : cell) :
  normalize_phone c =
  if is_na c then Ok None else
  x ← py_float c; n ← py_int x; Ok (Some (strip91 (py_str_int n))).
Proof.
  unfold normalize_phone, strip91. destruct (is_na c); [reflexivity|].
  destruct (py_float c) as [x|]; [|reflexivity]. cbn.
  destruct (py_int x) as [n|]; [|reflexivity]. cbn.
  destruct (String.length _ =? 10)%nat; reflexivity.
Qed.

Lemma digit_char_facts (c : ascii) :
  is_digit c = true ->
  lower c = c /\ is_py_space c = false /\ (c =? "-")%char = false /\ (c =? "+")%char = false /\
  (c =? ".")%char = false /\ (c =? "_")%char = false /\
  (c =? "i")%char = false /\ (c =? "n")%char = false /\
  digit_char (dval c) = c /\ 0 <= dval c < 10.
Proof.
  destruct c as [[] [] [] [] [] [] [] []];
    vm_compute; first [discriminate | intros _; repeat split; discriminate].
Qed.

Lemma forallb_rev_digits (l : list ascii) :
  forallb is_digit l = true -> forallb is_digit (rev l) = true.
Proof.
  rewrite !forallb_forall. intros H x Hx. rewrite <- in_rev in Hx. exact (H x Hx).
Qed.

Lemma drop_spaces_digits (l : list ascii) : forallb is_digit l = true -> drop_spaces l = l.
Proof.
  destruct l as [|c r]; [reflexivity|]. cbn. intros H. apply andb_prop in H as [Hc _].
  destruct (digit_char_facts c Hc) as (_ & -> & _). reflexivity.
Qed.

Lemma py_strip_digits (l : list ascii) : forallb is_digit l = true -> py_strip l = l.
Proof.
  intros H. unfold py_strip. rewrite (drop_spaces_digits l H).
  rewrite (drop_spaces_digits (rev l) (forallb_rev_digits l H)). apply rev_involutive.
Qed.

Lemma digits_after_digits (r : list ascii) :
  forallb is_digit r = true -> digits_after r = (map dval r, []).
Proof.
  induction r as [|c r IH]; cbn; intros H; [reflexivity|].
  apply andb_prop in H as [Hc Hr]. rewrite Hc, (IH Hr). reflexivity.
Qed.

Lemma parse_decimal_digits (l : list ascii) :
  l ≠ [] -> forallb is_digit l = true -> parse_decimal l = Some (digits_value (map dval l), 0).
Proof.
  destruct l as [|c r]; [congruence|]. intros _ H. cbn in H. apply andb_prop in H as [Hc Hr].
  unfold parse_decimal, digitpart. rewrite Hc, (digits_after_digits r Hr). reflexivity.
Qed.

Lemma float_of_string_digits (l : list ascii) :
  l ≠ [] -> forallb is_digit l = true ->
  float_of_string (string_of_list_ascii l) = Ok (round_decimal false (digits_value (map dval l)) 0).
Proof.
  intros Hne H. unfold float_of_string.
  rewrite list_ascii_of_string_of_list_ascii, (py_strip_digits l H).
  destruct l as [|c r]; [congruence|].
  pose proof H as H'. cbn in H'. apply andb_prop in H' as [Hc _].
  destruct (digit_char_facts c Hc) as (Hl & _ & Hm & Hp & _ & _ & Hi & Hn & _).
  rewrite Hm, Hp. cbn [map string_of_list_ascii]. rewrite Hl.
  cbn [String.eqb]. rewrite Hi, Hn. cbn [andb orb].
  rewrite (parse_decimal_digits (c :: r) Hne H). reflexivity.
Qed.

(** Integers below [2^53] are doubles, and [int()] gives them back. *)
Lemma py_int_round_exact (N : Z) :
  0 <= N < 2 ^ 53 -> py_int (round_decimal false N 0) = Ok N.
Proof.
  intros HN. unfold round_decimal. cbn [Z.leb Z.compare]. rewrite Z.mul_1_r.
  unfold round_to_double.
  destruct (Z.eqb_spec N 0) as [->|HN0]; [reflexivity|].
  assert (Hpos : 0 < N) by lia.
  pose proof (Z.log2_spec N Hpos) as [Hlo _].
  pose proof (Z.log2_nonneg N) as Hk0.
  assert (Hk53 : Z.log2 N < 53) by (apply Z.log2_lt_pow2; lia).
  replace (Z.log2 1) with 0 by reflexivity. rewrite Z.sub_0_r.
  assert (Hp : pow2_le N 1 (Z.log2 N) = true).
  { unfold pow2_le. rewrite (proj2 (Z.leb_le 0 _) Hk0). apply Z.leb_le. lia. }
  rewrite Hp.
  replace (Z.max (Z.log2 N - 52) (-1074)) with (Z.log2 N - 52) by lia.
  destruct (Z.leb_spec 0 (Z.log2 N - 52)) as [He|He].
  - replace (Z.log2 N - 52) with 0 by lia.
    change (1 * 2 ^ 0) with 1. change (2 ^ 0) with 1.
    rewrite ?Z.div_1_r, ?Z.mod_1_r, ?Z.mul_1_r. cbn [andb].
    replace (1 <? 2 * 0) with false by reflexivity.
    replace (2 * 0 <? 1) with true by reflexivity.
    replace (2 ^ 1024 <=? N) with false by (symmetry; apply Z.leb_gt; lia).
    cbn. f_equal. lia.
  - cbn [andb].
    rewrite Z.div_1_r, Z.mod_1_r.
    replace (1 <? 2 * 0) with false by reflexivity.
    replace (2 * 0 <? 1) with true by reflexivity.
    unfold py_int. rewrite (proj2 (Z.leb_gt 0 _) He).
    f_equal. apply Z.quot_mul. apply Z.pow_nonzero; lia.
Qed.

Lemma digits_value_app (ds : list Z) (d : Z) :
  digits_value (ds ++ [d]) = 10 * digits_value ds + d.
Proof. unfold digits_value. rewrite fold_left_app. reflexivity. Qed.

Lemma digits_value_bounds (l : list ascii) :
  forallb is_digit l = true -> 0 <= digits_value (map dval l) < 10 ^ Z.of_nat (length l).
Proof.
  induction l as [|c l IH] using rev_ind; [cbn; lia|].
  rewrite forallb_app. cbn [forallb]. intros H.
  apply andb_prop in H as [Hl Hc]. rewrite andb_true_r in Hc.
  destruct (digit_char_facts c Hc) as (_ & _ & _ & _ & _ & _ & _ & _ & _ & Hd).
  specialize (IH Hl).
  rewrite map_app. cbn [map]. rewrite digits_value_app, length_app. cbn [length].
  rewrite Nat2Z.inj_add, Z.pow_add_r by lia. cbn [Z.of_nat Z.pow Pos.iter Z.mul]. lia.
Qed.

(** [str()] prints back the digits [int()] read, when there is no
    leading zero. *)
Lemma dec_digits_roundtrip (l : list ascii) :
  forallb is_digit l = true ->
  match l with c :: _ => dval c <> 0 | [] => False end ->
  10 ^ (Z.of_nat (length l) - 1) <= digits_value (map dval l) /\
  forall fuel, (length l <= fuel)%nat -> dec_digits fuel (digits_value (map dval l)) = l.
Proof.
  induction l as [|c l IH] using rev_ind; [contradiction|].
  rewrite forallb_app. cbn [forallb]. intros H Hhead.
  apply andb_prop in H as [Hl Hc]. rewrite andb_true_r in Hc.
  destruct (digit_char_facts c Hc) as (_ & _ & _ & _ & _ & _ & _ & _ & Hdc & Hd).
  rewrite map_app. cbn [map]. rewrite digits_value_app, length_app. cbn [length].
  destruct l as [|d l'].
  - cbn in Hhead |- *. split; [lia|].
    intros [|f] Hf; [lia|]. change (10 * 0 + dval c) with (dval c). cbn [dec_digits]. rewrite (proj2 (Z.ltb_lt _ _) (proj2 Hd)). rewrite Hdc. reflexivity.
  - destruct (IH Hl Hhead) as [Hlow Hdig].
    set (v := digits_value (map dval (d :: l'))) in *.
    set (n := length (d :: l')) in *.
    assert (H1 : 0 < 10 ^ (Z.of_nat n - 1)) by (apply Z.pow_pos_nonneg; subst n; cbn; lia).
    split.
    + replace (Z.of_nat (n + 1) - 1) with (Z.succ (Z.of_nat n - 1)) by lia.
      rewrite Z.pow_succ_r by (subst n; cbn; lia). lia.
    + intros [|f] Hf; [lia|]. cbn [dec_digits].
      rewrite (proj2 (Z.ltb_ge _ _)) by lia.
      replace ((10 * v + dval c) / 10) with v.
      2: { symmetry. rewrite Z.add_comm, Z.mul_comm, Z.div_add by lia. rewrite Z.div_small by lia. lia. }
      replace ((10 * v + dval c) mod 10) with (dval c).
      2: { symmetry. rewrite Z.add_comm, Z.mul_comm, Z.mod_add by lia. apply Z.mod_small. lia. }
      rewrite Hdc, (Hdig f) by lia. reflexivity.
Qed.

Lemma py_str_int_digits (l : list ascii) :
  forallb is_digit l = true ->
  match l with c :: _ => dval c <> 0 | [] => False end ->
  py_str_int (digits_value (map dval l)) = string_of_list_ascii l.
Proof.
  intros H Hhead. destruct (dec_digits_roundtrip l H Hhead) as [Hlow Hdig].
  destruct (digits_value_bounds l H) as [Hnn _].
  set (v := digits_value (map dval l)) in *.
  assert (Hlen : (1 <= length l)%nat) by (destruct l; [contradiction | cbn; lia]).
  assert (Hv : 1 <= v).
  { eapply Z.le_trans; [|exact Hlow]. enough (0 < 10 ^ (Z.of_nat (length l) - 1)) by lia. apply Z.pow_pos_nonneg; lia. }
  assert (Hlog : Z.of_nat (length l) - 1 <= Z.log2 v).
  { rewrite <- (Z.log2_pow2 (Z.of_nat (length l) - 1)) by lia.
    apply Z.log2_le_mono. eapply Z.le_trans; [|exact Hlow].
    apply Z.pow_le_mono_l. lia. }
  unfold py_str_int. rewrite Z.abs_eq by lia.
  rewrite (proj2 (Z.ltb_ge v 0)) by lia.
  rewrite (Hdig _) by lia. reflexivity.
Qed.

Lemma float_of_string_raise (s : string) (ex : py_exc) :
  float_of_string s = Raise ex -> ex = ValueError.
Proof.
  unfold float_of_string. destruct (py_strip _) as [|c r]; cbn;
    repeat case_match; intros Hr; congruence.
Qed.

Lemma py_float_raise (c : cell) (ex : py_exc) :
  py_float c = Raise ex -> (c = CNone /\ ex = TypeError) \/ ex = ValueError \/ ex = OverflowError.
Proof.
  destruct c as [| n | x | s]; cbn.
  - intros H. injection H as <-. left. split; reflexivity.
  - case_match; intros Hr; try discriminate. injection Hr as <-. right. right. reflexivity.
  - discriminate.
  - intros H. right. left. exact (float_of_string_raise s ex H).
Qed.

Lemma strip91_spec (s : string) :
  (String.prefix "91" s = true -> String.length s = 12%nat ->
   ("91" ++ strip91 s)%string = s /\ String.length (strip91 s) = 10%nat) /\
  (String.prefix "91" s && (String.length s =? 12)%nat = false -> strip91 s = s).
Proof.
  unfold strip91. split.
  - intros Hp Hl. rewrite Hp, Hl. cbn [andb Nat.eqb].
    apply String.prefix_correct in Hp.
    destruct s as [|a [|b r]]; cbn in Hp; try discriminate.
    injection Hp as -> ->. cbn in Hl |- *. injection Hl as Hl. rewrite <- Hl.
    assert (Hsub : forall t, String.substring 0 (String.length t) t = t).
    { induction t as [|x t IH]; cbn; [reflexivity|]. rewrite IH. reflexivity. }
    rewrite Hsub. split; reflexivity.
  - intros ->. reflexivity.
Qed.

(** C2. [normalize_phone] returns [None] exactly on missing values
    ([pd.isna]); on any other value it returns a string exactly when
    [float()] accepts the value with a finite result, and otherwise it
    raises ([ValueError] or [OverflowError]): nothing is turned into a
    soft [None]. *)
Theorem C2_normalize_outcome (c : cell) :
  (normalize_phone c = Ok None <-> is_na c = true) /\
  ((exists s, normalize_phone c = Ok (Some s)) <->
     is_na c = false /\ exists m e, py_float c = Ok (FFin m e)) /\
  (forall ex, normalize_phone c = Raise ex -> ex = ValueError \/ ex = OverflowError).
Proof.
  rewrite normalize_phone_eq. destruct (is_na c) eqn:Hna.
  - split; [tauto|]. split; [|discriminate].
    split; [intros [s Hs]; discriminate | intros [H _]; discriminate].
  - destruct (py_float c) as [x|ex] eqn:Hf; cbn.
    + destruct x as [m e | neg |]; cbn.
      * split; [split; discriminate|]. split; [|discriminate].
        split; [intros _; split; eauto | intros _; eauto].
      * split; [split; discriminate|]. split.
        -- split; [intros [s Hs]; discriminate | intros (_ & m & e & H); discriminate].
        -- intros ex H. injection H as <-. right. reflexivity.
      * split; [split; discriminate|]. split.
        -- split; [intros [s Hs]; discriminate | intros (_ & m & e & H); discriminate].
        -- intros ex H. injection H as <-. left. reflexivity.
    + split; [split; discriminate|]. split.
      * split; [intros [s Hs]; discriminate | intros (_ & m & e & H); discriminate].
      * intros ex' H. injection H as <-.
        destruct (py_float_raise c ex Hf) as [[-> _] | Hex]; [discriminate | exact Hex].
Qed.

(** C2 fails as stated: the non-missing phone ["abc"] makes
    [normalize_phone] raise [ValueError] instead of returning a string. *)
Lemma C2_counterexample :
  ~ (forall c : cell, is_na c = false -> exists s, normalize_phone c = Ok (Some s)).
Proof.
  intros H. destruct (H (CStr "abc") eq_refl) as [s Hs]. vm_compute in Hs. discriminate.
Qed.



(** C9. On a phone written as decimal digits, leading zeros are dropped
    ([int()] reads ["0" ++ s] as [s]); without a leading zero and with at
    most 15 digits, any digit string other than a 12-digit one starting
    with ["91"] (another country code, for instance) comes back
    unchanged. *)
Theorem C9_digit_strings (l : list ascii) :
  l ≠ [] -> forallb is_digit l = true ->
  normalize_phone (CStr (string_of_list_ascii ("0"%char :: l)))
    = normalize_phone (CStr (string_of_list_ascii l)) /\
  (dval (hd "0"%char l) <> 0 -> (length l <= 15)%nat ->
   String.prefix "91" (string_of_list_ascii l)
     && (String.length (string_of_list_ascii l) =? 12)%nat = false ->
   normalize_phone (CStr (string_of_list_ascii l)) = Ok (Some (string_of_list_ascii l))).
Proof.
  intros Hne H. rewrite !normalize_phone_eq. cbn [is_na py_float].
  rewrite (float_of_string_digits l Hne H).
  split.
  - rewrite (float_of_string_digits ("0"%char :: l)) by first [discriminate | cbn; exact H].
    reflexivity.
  - intros Hhead Hlen Hstrip.
    destruct (digits_value_bounds l H) as [Hlo Hhi].
    assert (Hv : digits_value (map dval l) < 2 ^ 53).
    { eapply Z.lt_le_trans; [exact Hhi|].
      transitivity (10 ^ 15); [apply Z.pow_le_mono_r; lia | vm_compute; discriminate]. }
    cbn [mbind res_bind]. rewrite py_int_round_exact by lia. cbn [mbind res_bind].
    rewrite py_str_int_digits by (exact H || (destruct l; [congruence | exact Hhead])).
    destruct (strip91_spec (string_of_list_ascii l)) as [_ Hs]. rewrite (Hs Hstrip).
    reflexivity.
Qed.

(** C9 fails as stated: the leading zero of ["09876543210"] is removed. *)
Lemma C9_counterexample :
  ~ (forall s : string, String.prefix "0" s = true ->
       forallb is_digit (list_ascii_of_string s) = true ->
       normalize_phone (CStr s) = Ok (Some s)).
Proof.
  intros H. specialize (H "09876543210" eq_refl eq_refl). vm_compute in H. discriminate.
Qed.


(** C6 fails as stated: the name of a group is its first non-missing
    name ([GroupBy.first]), not the name of its first receipt. *)
Lemma C6_counterexample :
  ~ (forall df : list receipt, Forall (fun r => PaymentMode r = "Credit") df ->
       exists out, customer_summary df = Ok out /\
         forall sr, sr ∈ out ->
           Some (cs_CustomerName sr)
           = CustomerName <$> head (filter (fun r => phone_key r = Some (cs_NormalizedPhone sr)) df)).
Proof.
  intros H.
  destruct (H [unnamed_receipt (CStr "9876543210") 100; rc "Ram" (CStr "9876543210") 50])
    as (out & Hout & Hname).
  - repeat constructor.
  - vm_compute in Hout. injection Hout as <-.
    specialize (Hname _ (list_elem_of_here _ _)). vm_compute in Hname. discriminate.
Qed.

Lemma sample_receipts_normalize :
  forall r, r ∈ [unnamed_receipt (CStr "9876543210") 100; rc "Ram" (CStr "919876543210") 50;
                 rc "Ravi" CNone 70] ->
  exists o, normalize_phone (CustomerNumber r) = Ok o.
Proof.
  intros r Hr.
  repeat (apply elem_of_cons in Hr as [->|Hr];
          [first [exists (Some "9876543210"); vm_compute; reflexivity
                 | exists None; vm_compute; reflexivity] |]).
  apply elem_of_nil in Hr. contradiction.
Qed.


Lemma C6_witness :
  (forall r, r ∈ [unnamed_receipt (CStr "9876543210") 100; rc "Ram" (CStr "919876543210") 50;
                  rc "Ravi" CNone 70] ->
     exists o, normalize_phone (CustomerNumber r) = Ok o) /\
  exists out, customer_summary [unnamed_receipt (CStr "9876543210") 100;
                                rc "Ram" (CStr "919876543210") 50; rc "Ravi" CNone 70] = Ok out /\
    NoDup (cs_NormalizedPhone <$> out) /\
    (forall k, k ∈ cs_NormalizedPhone <$> out <->
               exists r, r ∈ [unnamed_receipt (CStr "9876543210") 100;
                              rc "Ram" (CStr "919876543210") 50; rc "Ravi" CNone 70] /\
                         normalize_phone (CustomerNumber r) = Ok (Some k)) /\
    (forall sr, sr ∈ out ->
       let grp := filter (fun r => phone_key r = Some (cs_NormalizedPhone sr))
                    [unnamed_receipt (CStr "9876543210") 100;
                     rc "Ram" (CStr "919876543210") 50; rc "Ravi" CNone 70] in
       cs_Total sr = sum_list (Total <$> grp) /\
       cs_CustomerName sr = first_some (CustomerName <$> grp)).
Proof.
  split; [exact sample_receipts_normalize|].
  apply C6_grouping. exact sample_receipts_normalize.
Defined.

Lemma C7_witness :
  df_receipts s_uploaded = Some (receipts_of s_uploaded) /\
  customer_summary (receipts_of s_uploaded) = Ok (summary_of_receipts (receipts_of s_uploaded)) /\
  initialize_customer_payment_data s_uploaded
    = (Ok (Some (payment_row (payment_tracker s_uploaded)
                   <$> summary_of_receipts (receipts_of s_uploaded))), s_uploaded) /\
  (forall sr, sr ∈ summary_of_receipts (receipts_of s_uploaded) ->
     payment_tracker s_uploaded !! Some (cs_NormalizedPhone sr) = None ->
     payment_row (payment_tracker s_uploaded) sr =
     {| Name := cs_CustomerName sr; Phone := Some (cs_NormalizedPhone sr); Address := "";
        Amount_Due := cs_Total sr; Previous_Balance := 0; Advance_Given := "No";
        Advance_Amount := 0; Payment_Status := "Due"; Amount_Paid := 0;
        Remaining_Amount := cs_Total sr; Payment_Mode := ""; Received_On := "";
        Cash_Collected := false; Cash_Deposited := false; Remarks := "";
        Advance_CF := 0 |}) /\
  (forall s0 : session, snd (initialize_customer_payment_data s0) = s0) /\
  tracker_file (run ARefresh s_uploaded) = tracker_file s_uploaded /\
  tracker_file (run AView s_uploaded) = tracker_file s_uploaded.
Proof.
  assert (Hd : df_receipts s_uploaded = Some (receipts_of s_uploaded)) by (vm_compute; reflexivity).
  assert (Hs : customer_summary (receipts_of s_uploaded)
               = Ok (summary_of_receipts (receipts_of s_uploaded))) by (vm_compute; reflexivity).
  split; [exact Hd|]. split; [exact Hs|].
  exact (C7_default_row s_uploaded _ _ Hd Hs).
Defined.



Lemma C10_witness :
  df_receipts s_two = Some (receipts_of s_two) /\
  customer_payment_data s_two = Some (view_of s_two) /\
  valid_action s_two (ASave asha_filter asha_edited "t") /\
  (Some "9123456789" ∈ Phone <$> view_of s_two) /\
  (Some "9123456789" ∉ Phone <$> filter_view asha_filter (view_of s_two)) /\
  run_steps (run (ASave asha_filter asha_edited "t") s_two) [AView]
    (run AView (run (ASave asha_filter asha_edited "t") s_two)) /\
  Forall (fun a => recomputes a = false) [AView] /\
  customer_payment_data (run (ASave asha_filter asha_edited "t") s_two) = Some asha_edited /\
  (Some "9123456789" ∉ Phone <$> asha_edited) /\
  file_entries (run (ASave asha_filter asha_edited "t") s_two) !! Some "9123456789"
    = loaded_tracker s_two !! Some "9123456789" /\
  (tracker_file s_two ≠ None ->
     file_entries (run (ASave asha_filter asha_edited "t") s_two) !! Some "9123456789"
     = file_entries s_two !! Some "9123456789") /\
  Some "9123456789" ∉ view_phones (run AView (run (ASave asha_filter asha_edited "t") s_two)).
Proof.
  assert (Hd : df_receipts s_two = Some (receipts_of s_two)) by (vm_compute; reflexivity).
  assert (Hv : customer_payment_data s_two = Some (view_of s_two)) by (vm_compute; reflexivity).
  assert (Ha : valid_action s_two (ASave asha_filter asha_edited "t")).
  { intros v Hv'. vm_compute in Hv'. injection Hv' as <-.
    apply (bool_decide_unpack _). vm_compute. reflexivity. }
  assert (Hin : Some "9123456789" ∈ Phone <$> view_of s_two)
    by (apply (bool_decide_unpack _); vm_compute; reflexivity).
  assert (Hout : Some "9123456789" ∉ Phone <$> filter_view asha_filter (view_of s_two))
    by (apply (bool_decide_unpack _); vm_compute; reflexivity).
  assert (Hsteps : run_steps (run (ASave asha_filter asha_edited "t") s_two) [AView]
                     (run AView (run (ASave asha_filter asha_edited "t") s_two)))
    by (apply rs_cons; [exact I | apply rs_nil]).
  assert (Hacts : Forall (fun a => recomputes a = false) [AView]) by repeat constructor.
  split; [exact Hd|]. split; [exact Hv|]. split; [exact Ha|]. split; [exact Hin|].
  split; [exact Hout|]. split; [exact Hsteps|]. split; [exact Hacts|].
  exact (C10_filtered_save_drops s_two (receipts_of s_two) (view_of s_two) asha_filter
           asha_edited "t" "9123456789" [AView]
           (run AView (run (ASave asha_filter asha_edited "t") s_two))
           Hd Hv Ha Hin Hout Hsteps Hacts).
Defined.


Lemma C9_witness :
  list_ascii_of_string "449876543210" ≠ [] /\
  forallb is_digit (list_ascii_of_string "449876543210") = true /\
  normalize_phone (CStr (string_of_list_ascii ("0"%char :: list_ascii_of_string "449876543210")))
    = normalize_phone (CStr (string_of_list_ascii (list_ascii_of_string "449876543210"))) /\
  (dval (hd "0"%char (list_ascii_of_string "449876543210")) <> 0 ->
   (length (list_ascii_of_string "449876543210") <= 15)%nat ->
   String.prefix "91" (string_of_list_ascii (list_ascii_of_string "449876543210"))
     && (String.length (string_of_list_ascii (list_ascii_of_string "449876543210")) =? 12)%nat
     = false ->
   normalize_phone (CStr (string_of_list_ascii (list_ascii_of_string "449876543210")))
     = Ok (Some (string_of_list_ascii (list_ascii_of_string "449876543210")))).
Proof.
  assert (Hne : list_ascii_of_string "449876543210" ≠ []) by (vm_compute; discriminate).
  assert (Hd : forallb is_digit (list_ascii_of_string "449876543210") = true)
    by (vm_compute; reflexivity).
  split; [exact Hne|]. split; [exact Hd|].
  exact (C9_digit_strings _ Hne Hd).
Defined.

(* ================================================================== *)
(** * Properties of the other functions of [streamlit_app.py] *)

(** The password gate ([check_password] with its [password_entered]
    callback) lets the user in after a sequence of submitted entries
    exactly when one of them equals [st.secrets.get("password",
    "lalita2025")]; once open it stays open, and a missing entry never
    opens it. *)
Lemma password_gate_opens (secret : option string) (entries : list (option string)) :
  check_password (pw_runs secret entries)
  = existsb (fun t => match t with
                      | Some p => String.eqb p (default "lalita2025" secret)
                      | None => false end) entries.
Proof.
  unfold pw_runs.
  assert (Hgen : forall s, check_password (foldl (fun s t => pw_run secret t s) s entries)
                 = check_password s || existsb (fun t => match t with
                      | Some p => String.eqb p (default "lalita2025" secret)
                      | None => false end) entries).
  { induction entries as [|t entries IH]; intros s; cbn; [now rewrite orb_false_r|].
    rewrite IH. unfold pw_run.
    destruct (check_password s) eqn:Hc; [rewrite Hc; reflexivity|].
    destruct t as [p|]; cbn; [|rewrite ?Hc; reflexivity].
    destruct (String.eqb p (default "lalita2025" secret)); reflexivity. }
  rewrite Hgen. reflexivity.
Qed.

(** [save_data] followed by [init_session_state] in a new session gives
    back the saved receipts and items; the logo is the saved one, or the
    logo file already on disk when there was none to save. *)
Lemma saved_data_restart (s : saved_state) (fs : saved_files) :
  sd_df_receipts s ≠ None -> sd_df_items s ≠ None ->
  init_session_state (save_data s fs)
  = {| sd_df_receipts := sd_df_receipts s; sd_df_items := sd_df_items s;
       sd_logo_bytes := match sd_logo_bytes s with
                        | Some b => Some b
                        | None => saved_logo fs
                        end |}.
Proof.
  destruct s as [[d|] [i|] [b|]]; cbn; intros H1 H2; try congruence;
    destruct (saved_logo fs); reflexivity.
Qed.

(** An uploaded file in which some [CustomerNumber] (on any receipt, Credit
    or not) makes [normalize_phone] raise leaves the session as a run
    without upload would: the [except] branch only reports the error. *)
Lemma run_upload_raise (raw : list receipt) (e : py_exc) (s : session) :
  mapM (fun r => normalize_phone (CustomerNumber r)) raw = Raise e ->
  run (AUpload raw) s = run AView s.
Proof.
  intros Hm. unfold run, main, st_bind.
  destruct (load_payment_tracker s) as [[[]|e1] s1]; [|reflexivity].
  destruct (sidebar_stats s1) as [[[]|e2] s2]; [|reflexivity].
  unfold st_try, import_receipts, st_bind at 1, st_lift at 1. rewrite Hm.
  cbv beta iota zeta.
  unfold main_content, st_bind, st_get. cbv beta iota zeta.
  destruct (df_receipts s2); [|reflexivity].
  destruct (customer_payment_data s2); [reflexivity|].
  destruct (initialize_customer_payment_data s2) as [[v|e3] s3]; reflexivity.
Qed.

(** Along any sequence of runs, [payment_tracker.json] is only written by
    "Save All Changes": a trace without a save leaves it as it was. *)
Lemma tracker_file_steps (s s' : session) (acts : list action) :
  run_steps s acts s' -> Forall (fun a => is_save a = false) acts ->
  tracker_file s' = tracker_file s.
Proof.
  induction 1 as [s|s a acts s' _ _ IH]; intros Hacts; [reflexivity|].
  apply Forall_cons in Hacts as [Ha Hacts].
  rewrite (IH Hacts). apply run_keeps_file. exact Ha.
Qed.

Lemma set_tracker_same (s : session) : set_tracker (payment_tracker s) s = s.
Proof. destruct s; reflexivity. Qed.

Lemma load_tracker_run (s : session) :
  load_payment_tracker s = (Ok tt, set_tracker (loaded_tracker s) s).
Proof.
  unfold load_payment_tracker, loaded_tracker, st_bind, st_get, st_modify, st_ret.
  cbv beta iota zeta. destruct (tracker_file s) as [[t|]|]; [reflexivity|reflexivity|].
  rewrite set_tracker_same. reflexivity.
Qed.

Lemma run_refresh (s : session) :
  run ARefresh s =
  match df_receipts s, customer_payment_data s with
  | Some d, Some _ =>
      match customer_summary d with
      | Ok summ => set_view (Some (payment_row (loaded_tracker s) <$> summ))
                     (set_tracker (loaded_tracker s) s)
      | Raise _ => set_tracker (loaded_tracker s) s
      end
  | _, _ => set_tracker (loaded_tracker s) s
  end.
Proof.
  unfold run, main, st_bind at 1. rewrite load_tracker_run. cbv beta iota zeta.
  unfold st_bind at 1, sidebar_stats, st_bind at 1, st_get. cbv beta iota zeta.
  cbn [df_receipts customer_payment_data set_tracker].
  destruct (df_receipts s) as [d|] eqn:Hd; destruct (customer_payment_data s) as [v|] eqn:Hv;
    unfold st_lift, st_ret; cbv beta iota zeta; try reflexivity.
  - unfold main_content, st_bind, st_get, st_ret. cbv beta iota zeta. cbn [df_receipts customer_payment_data set_tracker].
    rewrite Hd, Hv. cbv beta iota zeta.
    unfold initialize_customer_payment_data, st_bind, st_get, st_lift, st_ret, st_modify.
    cbv beta iota zeta. cbn [df_receipts set_tracker]. rewrite Hd.
    destruct (customer_summary d); reflexivity.
  - unfold main_content, st_bind, st_get, st_ret. cbv beta iota zeta. cbn [df_receipts set_tracker].
    rewrite Hd. reflexivity.
  - unfold main_content, st_bind, st_get, st_ret. cbv beta iota zeta. cbn [df_receipts set_tracker].
    rewrite Hd. reflexivity.
Qed.

(** "Refresh Data" is idempotent: a second refresh changes nothing. *)
Lemma refresh_idempotent (s : session) :
  run ARefresh (run ARefresh s) = run ARefresh s.
Proof.
  assert (Hl : forall s', loaded_tracker (set_tracker (loaded_tracker s') s') = loaded_tracker s').
  { intros s'. unfold loaded_tracker at 1. cbn [tracker_file set_tracker payment_tracker].
    unfold loaded_tracker. destruct (tracker_file s') as [[t'|]|]; reflexivity. }
  rewrite (run_refresh s).
  destruct (df_receipts s) as [d|] eqn:Hd; destruct (customer_payment_data s) as [v|] eqn:Hv.
  - destruct (customer_summary d) as [summ|e] eqn:Hs.
    + rewrite run_refresh. cbn [df_receipts customer_payment_data set_view set_tracker].
      rewrite Hd, Hs.
      assert (loaded_tracker (set_view (Some (payment_row (loaded_tracker s) <$> summ))
                (set_tracker (loaded_tracker s) s)) = loaded_tracker s) as ->.
      { unfold loaded_tracker at 1. cbn. unfold loaded_tracker. destruct (tracker_file s) as [[t'|]|]; reflexivity. }
      destruct s; reflexivity.
    + rewrite run_refresh. cbn [df_receipts customer_payment_data set_tracker].
      rewrite Hd, Hv, Hs. rewrite Hl. destruct s; reflexivity.
  - rewrite run_refresh. cbn [df_receipts customer_payment_data set_tracker].
    rewrite Hd, Hv. rewrite Hl. destruct s; reflexivity.
  - rewrite run_refresh. cbn [df_receipts customer_payment_data set_tracker].
    rewrite Hd. rewrite Hl. destruct s; reflexivity.
  - rewrite run_refresh. cbn [df_receipts customer_payment_data set_tracker].
    rewrite Hd. rewrite Hl. destruct s; reflexivity.
Qed.

Lemma import_stored (raw : list receipt) (ks : list (option string)) :
  Forall2 (fun r k => normalize_phone (CustomerNumber r) = Ok k) raw ks ->
  (fun '(k, r) =>
     {| ReceiptId := ReceiptId r; CustomerName := CustomerName r;
        CustomerNumber := cell_of_phone k; Total := Total r;
        PaymentMode := PaymentMode r |})
    <$> filter (fun p => PaymentMode p.2 = "Credit") (zip ks raw)
  = stored_receipt <$> filter (fun r => PaymentMode r = "Credit") raw.
Proof.
  induction 1 as [|r k raw ks Hr _ IH]; [reflexivity|].
  cbn [zip]. rewrite !filter_cons. cbn [snd].
  destruct (decide (PaymentMode r = "Credit")); [|exact IH].
  rewrite !fmap_cons, IH. unfold stored_receipt, phone_key. rewrite Hr. reflexivity.
Qed.

Lemma run_upload_ok (raw : list receipt) (s : session) :
  df_receipts s = None \/ customer_payment_data s ≠ None ->
  (forall r, r ∈ raw -> exists o, normalize_phone (CustomerNumber r) = Ok o) ->
  run (AUpload raw) s =
  match customer_summary (stored_receipt <$> filter (fun r => PaymentMode r = "Credit") raw) with
  | Ok summ =>
      set_view (Some (payment_row (loaded_tracker s) <$> summ))
        (set_receipts (Some (stored_receipt <$> filter (fun r => PaymentMode r = "Credit") raw))
           (set_tracker (loaded_tracker s) s))
  | Raise _ =>
      set_receipts (Some (stored_receipt <$> filter (fun r => PaymentMode r = "Credit") raw))
        (set_tracker (loaded_tracker s) s)
  end.
Proof.
  intros Hside Hraw.
  destruct (mapM_res_total (fun r => normalize_phone (CustomerNumber r)) raw Hraw) as [ks Hks].
  pose proof (import_stored raw ks (mapM_res_ok _ _ _ Hks)) as Hst.
  unfold run, main, st_bind at 1. rewrite load_tracker_run. cbv beta iota zeta.
  unfold st_bind at 1, sidebar_stats, st_bind at 1, st_get. cbv beta iota zeta.
  cbn [df_receipts customer_payment_data set_tracker].
  assert (Hsb : match df_receipts s, customer_payment_data s with
                | Some _, None => st_lift (Raise TypeError)
                | _, _ => st_ret tt
                end = @st_ret unit tt).
  { destruct Hside as [-> | Hv]; [reflexivity|].
    destruct (df_receipts s), (customer_payment_data s); congruence. }
  rewrite Hsb. unfold st_ret at 1. cbv beta iota zeta.
  unfold st_try, import_receipts, st_bind at 1, st_lift at 1. rewrite Hks. cbv beta iota zeta.
  rewrite Hst.
  set (stored := stored_receipt <$> filter (fun r => PaymentMode r = "Credit") raw).
  unfold st_bind, st_modify. cbv beta iota zeta.
  unfold initialize_customer_payment_data, st_bind, st_get, st_lift, st_ret. cbv beta iota zeta.
  cbn [df_receipts set_receipts].
  destruct (customer_summary stored) as [summ|e] eqn:Hs; cbv beta iota zeta.
  - unfold st_modify. reflexivity.
  - unfold main_content, st_bind, st_get, st_ret. cbv beta iota zeta.
    cbn [df_receipts customer_payment_data set_receipts set_tracker].
    destruct (customer_payment_data s); [reflexivity|].
    unfold initialize_customer_payment_data, st_bind, st_get, st_lift, st_ret. cbv beta iota zeta.
    cbn [df_receipts set_receipts]. rewrite Hs. reflexivity.
Qed.

Lemma digit_char_digit (d : Z) :
  0 <= d < 10 -> is_digit (digit_char d) = true /\ dval (digit_char d) = d.
Proof.
  intros Hd.
  assert (d = 0 \/ d = 1 \/ d = 2 \/ d = 3 \/ d = 4 \/ d = 5 \/ d = 6 \/ d = 7 \/ d = 8 \/ d = 9)
    as Hcases by lia.
  repeat destruct Hcases as [-> | Hcases]; try (subst d); split; reflexivity.
Qed.

Lemma dec_digits_spec (f : nat) (n : Z) :
  0 < n < 10 ^ Z.of_nat f ->
  forallb is_digit (dec_digits f n) = true /\
  match dec_digits f n with c :: _ => dval c <> 0 | [] => False end /\
  digits_value (map dval (dec_digits f n)) = n.
Proof.
  revert n. induction f as [|f IH]; intros n Hn.
  - cbn in Hn. lia.
  - cbn [dec_digits]. destruct (Z.ltb_spec n 10) as [Hlt|Hge].
    + destruct (digit_char_digit n ltac:(lia)) as [Hdig Hval].
      cbn [forallb map]. rewrite Hdig, Hval. split; [reflexivity|]. split; [lia|].
      reflexivity.
    + assert (Hq : 0 < n / 10 < 10 ^ Z.of_nat f).
      { split; [apply Z.div_str_pos; lia|].
        apply Z.div_lt_upper_bound; [lia|].
        rewrite Nat2Z.inj_succ, Z.pow_succ_r in Hn by lia. lia. }
      destruct (IH (n / 10) Hq) as (Hdig & Hhead & Hval).
      destruct (digit_char_digit (n mod 10) ltac:(pose proof (Z.mod_pos_bound n 10); lia))
        as [Hd Hdv].
      split; [rewrite forallb_app; cbn [forallb]; rewrite Hdig, Hd; reflexivity|].
      split.
      * destruct (dec_digits f (n / 10)) as [|c l]; [contradiction|]. exact Hhead.
      * rewrite map_app. cbn [map]. rewrite digits_value_app, Hval, Hdv.
        pose proof (Z.div_mod n 10). lia.
Qed.

(** [str(n)] of a positive integer: its decimal digits, without a leading
    zero. *)
Lemma py_str_int_pos (n : Z) :
  0 < n ->
  exists l, py_str_int n = string_of_list_ascii l /\ forallb is_digit l = true /\
            match l with c :: _ => dval c <> 0 | [] => False end /\
            digits_value (map dval l) = n.
Proof.
  intros Hn. exists (dec_digits (S (Z.to_nat (Z.log2 (Z.abs n)))) (Z.abs n)).
  unfold py_str_int. rewrite (proj2 (Z.ltb_ge n 0)) by lia. split; [reflexivity|].
  rewrite Z.abs_eq by lia.
  apply dec_digits_spec. split; [exact Hn|].
  rewrite Nat2Z.inj_succ, Z2Nat.id by (apply Z.log2_nonneg).
  apply Z.lt_le_trans with (2 ^ Z.succ (Z.log2 n)).
  - apply Z.log2_spec. exact Hn.
  - apply Z.pow_le_mono_l. split; [lia|lia].
Qed.

Lemma normalize_digit_string (l : list ascii) :
  forallb is_digit l = true ->
  match l with c :: _ => dval c <> 0 | [] => False end ->
  digits_value (map dval l) < 2 ^ 53 ->
  normalize_phone (CStr (string_of_list_ascii l))
  = Ok (Some (strip91 (string_of_list_ascii l))).
Proof.
  intros H Hhead Hv.
  assert (Hne : l ≠ []) by (destruct l; [contradiction | discriminate]).
  rewrite normalize_phone_eq. cbn [is_na py_float].
  rewrite (float_of_string_digits l Hne H). cbn [mbind res_bind].
  destruct (digits_value_bounds l H) as [Hlo _].
  rewrite py_int_round_exact by lia. cbn [mbind res_bind].
  rewrite py_str_int_digits by assumption. reflexivity.
Qed.



Lemma py_str_int_short (v : Z) :
  0 <= v < 10 ^ 9 -> (String.length (py_str_int v) <= 9)%nat.
Proof.
  intros Hv. destruct (Z.eq_dec v 0) as [->|Hv0]; [change (String.length (py_str_int 0)) with 1%nat; lia|].
  destruct (py_str_int_pos v ltac:(lia)) as (l & Hl & Hdig & Hhead & Hval).
  rewrite Hl. destruct (dec_digits_roundtrip l Hdig Hhead) as [Hlow _].
  rewrite Hval in Hlow.
  assert (Hlen : String.length (string_of_list_ascii l) = length l).
  { clear. induction l as [|ch l IH]; cbn; [reflexivity|]. rewrite IH. reflexivity. }
  rewrite Hlen.
  assert (Z.of_nat (length l) - 1 < 9).
  { apply (Z.pow_lt_mono_r_iff 10 (Z.of_nat (length l) - 1) 9); lia. }
  lia.
Qed.

(** [normalize_phone] is not idempotent: a 12-digit ["910..."] number is
    normalized to a 10-digit string with a leading zero, and normalizing
    that string again drops the zero. *)
Lemma normalize_leading_zero_unstable (r : list ascii) :
  length r = 9%nat -> forallb is_digit r = true ->
  normalize_phone (CStr ("91" ++ string_of_list_ascii ("0"%char :: r)))
    = Ok (Some (string_of_list_ascii ("0"%char :: r))) /\
  exists k, normalize_phone (CStr (string_of_list_ascii ("0"%char :: r))) = Ok (Some k) /\
            k ≠ string_of_list_ascii ("0"%char :: r).
Proof.
  intros Hlen Hdig.
  assert (Hlen' : forall l, String.length (string_of_list_ascii l) = length l).
  { induction l as [|ch l IH]; cbn; [reflexivity|]. rewrite IH. reflexivity. }
  split.
  - change ("91" ++ string_of_list_ascii ("0"%char :: r))%string
      with (string_of_list_ascii ("9"%char :: "1"%char :: "0"%char :: r)).
    rewrite normalize_digit_string.
    + destruct (strip91_spec (string_of_list_ascii ("9"%char :: "1"%char :: "0"%char :: r)))
        as [Hstrip _].
      destruct Hstrip as [Happ _]; [reflexivity| rewrite Hlen'; cbn; rewrite Hlen; reflexivity|].
      cbn in Happ. injection Happ as Happ. do 2 f_equal. exact Happ.
    + cbn [forallb]. rewrite Hdig. reflexivity.
    + cbn. discriminate.
    + destruct (digits_value_bounds ("9"%char :: "1"%char :: "0"%char :: r)) as [_ Hb].
      * cbn [forallb]. rewrite Hdig. reflexivity.
      * cbn [length] in Hb. rewrite Hlen in Hb.
        eapply Z.lt_le_trans; [exact Hb|]. vm_compute. discriminate.
  - rewrite normalize_phone_eq. cbn [is_na py_float].
    rewrite (float_of_string_digits ("0"%char :: r)) by first [discriminate | cbn; exact Hdig].
    cbn [mbind res_bind].
    assert (Hz : digits_value (map dval ("0"%char :: r)) = digits_value (map dval r)).
    { cbn [map]. unfold digits_value. cbn [fold_left]. reflexivity. }
    rewrite Hz.
    destruct (digits_value_bounds r Hdig) as [Hlo Hhi]. rewrite Hlen in Hhi.
    change (10 ^ Z.of_nat 9) with (10 ^ 9) in Hhi.
    rewrite py_int_round_exact by (split; [lia | eapply Z.lt_le_trans; [exact Hhi | vm_compute; discriminate]]).
    cbn [mbind res_bind].
    eexists. split; [reflexivity|].
    pose proof (py_str_int_short (digits_value (map dval r)) ltac:(lia)) as Hs.
    destruct (strip91_spec (py_str_int (digits_value (map dval r)))) as [_ Hno].
    rewrite Hno.
    + intros Heq. apply (f_equal String.length) in Heq. rewrite Hlen' in Heq. cbn [length] in Heq. lia.
    + destruct (String.length _ =? 12)%nat eqn:E; [apply Nat.eqb_eq in E; lia|].
      apply andb_false_r.
Qed.






Lemma payment_row_entry (t : tracker) (sr : summary_row) (r : view_row) (now : string) :
  t !! Some (cs_NormalizedPhone sr) = Some (entry_of_row r now) ->
  payment_row t sr = saved_row r sr.
Proof. intros H. unfold payment_row. rewrite H. reflexivity. Qed.

(** "Save All Changes" followed by "Refresh Data": the rebuilt view shows,
    for each customer whose phone was edited, the last edited row's tracker
    fields with the name and amount due taken from the receipts and the
    remaining amount recomputed; other customers keep the row built from
    the tracker as it was loaded. *)
Lemma save_refresh (s : session) (d : list receipt) (v : list view_row) (summ : list summary_row)
      (f : view_filter) (pre post : list view_row) (r : view_row) (now : string) :
  df_receipts s = Some d -> customer_payment_data s = Some v -> customer_summary d = Ok summ ->
  Forall (fun r' => Phone r' ≠ Phone r) post ->
  exists v', customer_payment_data (run ARefresh (run (ASave f (pre ++ r :: post) now) s)) = Some v'
    /\ (forall sr, sr ∈ summ -> Phone r = Some (cs_NormalizedPhone sr) -> saved_row r sr ∈ v')
    /\ (forall sr, sr ∈ summ -> (forall r', r' ∈ pre ++ r :: post -> Phone r' ≠ Some (cs_NormalizedPhone sr)) ->
          payment_row (loaded_tracker s) sr ∈ v').
Proof.
  intros Hd Hv Hs Hpost.
  rewrite (run_save s d v f _ now Hd Hv), run_refresh. cbn [df_receipts customer_payment_data].
  rewrite Hs. cbn [loaded_tracker tracker_file set_view set_tracker customer_payment_data]. eexists; split; [reflexivity|]. split.
  - intros sr Hsr Hp. rewrite <- (payment_row_entry (update_tracker (pre ++ r :: post) now (loaded_tracker s)) sr r now).
    + apply list_elem_of_fmap_2. exact Hsr.
    + rewrite <- Hp. apply update_tracker_last. exact Hpost.
  - intros sr Hsr Hno. apply list_elem_of_fmap. exists sr. split; [|exact Hsr].
    unfold payment_row. rewrite update_tracker_frame by exact Hno. reflexivity.
Qed.

(** The status counts of the dashboard (Settled, Due, Advance, Partial)
    plus the number of rows with any other status make up the number of
    customers. *)
Lemma dashboard_status_counts (v : list view_row) (m : dashboard) :
  create_dashboard (Some v) = DMetrics m ->
  (paid_count m + unpaid_count m + advance_count m + partial_count m
   + length (filter (fun r => ¬ known_status r) v))%nat = total_customers m.
Proof.
  unfold create_dashboard. destruct (length v =? 0)%nat; [discriminate|].
  intros H. injection H as <-. cbn. unfold count_status, known_status.
  induction v as [|x v IH]; [reflexivity|]. rewrite !filter_cons.
  repeat destruct decide; cbn; try lia; exfalso; intuition congruence.
Qed.


Lemma count_status_all (st : string) (l : list view_row) :
  Forall (fun r => Payment_Status r = st) l -> count_status st l = length l.
Proof.
  unfold count_status. induction 1 as [|x l Hx _ IH]; [reflexivity|].
  rewrite filter_cons_True by exact Hx. cbn. rewrite IH. reflexivity.
Qed.

Lemma count_status_none (st : string) (l : list view_row) :
  Forall (fun r => Payment_Status r ≠ st) l -> count_status st l = 0%nat.
Proof.
  unfold count_status. induction 1 as [|x l Hx _ IH]; [reflexivity|].
  rewrite filter_cons_False by exact Hx. exact IH.
Qed.

(** With an empty payment tracker, the dashboard of a non-empty view
    counts every customer as unpaid, none as paid, nothing received,
    everything remaining, and a recovery of 0%. *)
Lemma dashboard_no_tracker (summ : list summary_row) :
  summ ≠ [] ->
  exists m, create_dashboard (Some (payment_row ∅ <$> summ)) = DMetrics m
    /\ unpaid_count m = total_customers m /\ paid_count m = 0%nat
    /\ received_amount m = 0 /\ remaining_amount m = total_amount m
    /\ Qeq (recovery_percent m) (inject_Z 0).
Proof.
  intros Hne. unfold create_dashboard.
  destruct (length (payment_row ∅ <$> summ) =? 0)%nat eqn:Hl.
  { apply Nat.eqb_eq in Hl. rewrite length_fmap in Hl. apply length_zero_iff_nil in Hl. contradiction. }
  assert (Hpaid : sum_list (Amount_Paid <$> (payment_row ∅ <$> summ)) = 0).
  { clear Hne Hl. induction summ as [|sr summ IH]; [reflexivity|].
    rewrite !fmap_cons. unfold sum_list in *. cbn [foldr]. rewrite IH. reflexivity. }
  assert (Hrem : sum_list (Remaining_Amount <$> (payment_row ∅ <$> summ))
                 = sum_list (Amount_Due <$> (payment_row ∅ <$> summ))).
  { clear Hne Hl Hpaid. induction summ as [|sr summ IH]; [reflexivity|].
    rewrite !fmap_cons. unfold sum_list in *. cbn [foldr]. rewrite IH. cbn [payment_row Remaining_Amount Amount_Due]. rewrite lookup_empty. cbn. lia. }
  assert (Hdue : Forall (fun r => Payment_Status r = "Due") (payment_row ∅ <$> summ)).
  { apply Forall_fmap, Forall_true. intros sr. reflexivity. }
  eexists; split; [reflexivity|]. cbn [unpaid_count total_customers paid_count received_amount
    remaining_amount total_amount recovery_percent].
  rewrite Hpaid, Hrem. split; [|split; [|split; [reflexivity|split; [reflexivity|]]]].
  - apply count_status_all. exact Hdue.
  - apply count_status_none. eapply Forall_impl; [exact Hdue|]. intros r ->. discriminate.
  - destruct (0 <? _); [|reflexivity]. unfold percent, Qeq. cbn. reflexivity.
Qed.

Lemma run_no_view (a : action) (s : session) (d : list receipt) :
  df_receipts s = Some d -> customer_payment_data s = None ->
  fst (main a s) = Raise TypeError /\ run a s = set_tracker (loaded_tracker s) s.
Proof.
  intros Hd Hv. unfold run, main, st_bind. rewrite load_tracker_run. cbv beta iota zeta.
  unfold sidebar_stats, st_bind, st_get, st_lift. cbv beta iota zeta.
  cbn [df_receipts customer_payment_data set_tracker]. rewrite Hd, Hv.
  split; reflexivity.
Qed.

(** A new session started while [saved_receipts.pkl] holds receipts is
    stuck: [init_session_state] loads [df_receipts] but leaves
    [customer_payment_data] at [None], so every run raises [TypeError] in
    the sidebar statistics ([len(None)]) before the uploader or the content
    is reached, and the session never leaves that state. *)
Lemma restart_stuck (fs : saved_files) (file : option json_file) (d : list receipt)
      (acts : list action) (s' : session) :
  saved_receipts fs = Some (Pickled d) -> run_steps (new_session fs file) acts s' ->
  df_receipts s' = Some d /\ customer_payment_data s' = None /\
  forall a, fst (main a s') = Raise TypeError.
Proof.
  intros Hfs Hsteps.
  assert (Hd0 : df_receipts (new_session fs file) = Some d).
  { unfold new_session, init_session_state, load_saved_data. cbn [df_receipts]. rewrite Hfs.
    destruct (saved_items fs) as [[]|], (saved_logo fs); reflexivity. }
  assert (Hv0 : customer_payment_data (new_session fs file) = None) by reflexivity.
  revert Hd0 Hv0. induction Hsteps as [s|s a acts s' _ _ IH]; intros Hd Hv.
  - split; [exact Hd|]. split; [exact Hv|]. intros a. exact (proj1 (run_no_view a s d Hd Hv)).
  - apply IH; rewrite (proj2 (run_no_view a s d Hd Hv)); [exact Hd|exact Hv].
Qed.

Lemma restart_stuck_witness :
  saved_receipts {| saved_receipts := Some (Pickled (receipts_of s_two)); saved_items := None; saved_logo := None |}
    = Some (Pickled (receipts_of s_two)) /\
  run_steps (new_session {| saved_receipts := Some (Pickled (receipts_of s_two)); saved_items := None; saved_logo := None |} None)
    [ARefresh] (run ARefresh (new_session {| saved_receipts := Some (Pickled (receipts_of s_two)); saved_items := None; saved_logo := None |} None)) /\
  customer_payment_data (run ARefresh (new_session {| saved_receipts := Some (Pickled (receipts_of s_two)); saved_items := None; saved_logo := None |} None)) = None.
Proof.
  assert (H1 : saved_receipts {| saved_receipts := Some (Pickled (receipts_of s_two)); saved_items := None; saved_logo := None |}
    = Some (Pickled (receipts_of s_two))) by reflexivity.
  assert (H2 : run_steps (new_session {| saved_receipts := Some (Pickled (receipts_of s_two)); saved_items := None; saved_logo := None |} None)
    [ARefresh] (run ARefresh (new_session {| saved_receipts := Some (Pickled (receipts_of s_two)); saved_items := None; saved_logo := None |} None))).
  { apply rs_cons; [exact I|]. apply rs_nil. }
  split; [exact H1|]. split; [exact H2|].
  exact (proj1 (proj2 (restart_stuck _ _ _ _ _ H1 H2))).
Defined.

(** A successful upload stores the Credit receipts with normalized
    numbers, reloads the tracker, leaves the tracker file untouched and
    builds the payment view from the stored receipts and the tracker. *)
Lemma upload_ok_state (raw : list receipt) (s : session) :
  df_receipts s = None \/ customer_payment_data s ≠ None ->
  (forall r, r ∈ raw -> exists o, normalize_phone (CustomerNumber r) = Ok o) ->
  df_receipts (run (AUpload raw) s) = Some (stored_receipt <$> filter (fun r => PaymentMode r = "Credit") raw)
  /\ payment_tracker (run (AUpload raw) s) = loaded_tracker s
  /\ tracker_file (run (AUpload raw) s) = tracker_file s
  /\ (forall summ, customer_summary (stored_receipt <$> filter (fun r => PaymentMode r = "Credit") raw) = Ok summ ->
        customer_payment_data (run (AUpload raw) s) = Some (payment_row (loaded_tracker s) <$> summ)).
Proof.
  intros Hpre Hok. rewrite (run_upload_ok raw s Hpre Hok).
  destruct (customer_summary _) as [summ|e] eqn:Hs; cbn.
  - split; [reflexivity|]. split; [reflexivity|]. split; [reflexivity|].
    intros summ' Hs'. congruence.
  - split; [reflexivity|]. split; [reflexivity|]. split; [reflexivity|].
    intros summ' Hs'. discriminate.
Qed.

Lemma saved_data_restart_witness :
  sd_df_receipts {| sd_df_receipts := Some []; sd_df_items := Some []; sd_logo_bytes := None |} ≠ None /\
  sd_df_items {| sd_df_receipts := Some []; sd_df_items := Some []; sd_logo_bytes := None |} ≠ None /\
  init_session_state (save_data {| sd_df_receipts := Some []; sd_df_items := Some []; sd_logo_bytes := None |}
                                {| saved_receipts := None; saved_items := None; saved_logo := Some [Byte.x01] |})
  = {| sd_df_receipts := Some []; sd_df_items := Some []; sd_logo_bytes := Some [Byte.x01] |}.
Proof.
  assert (H1 : sd_df_receipts {| sd_df_receipts := Some []; sd_df_items := Some []; sd_logo_bytes := None |} ≠ None)
    by (vm_compute; discriminate).
  assert (H2 : sd_df_items {| sd_df_receipts := Some []; sd_df_items := Some []; sd_logo_bytes := None |} ≠ None)
    by (vm_compute; discriminate).
  split; [exact H1|]. split; [exact H2|].
  exact (saved_data_restart _ {| saved_receipts := None; saved_items := None; saved_logo := Some [Byte.x01] |} H1 H2).
Defined.

Lemma run_upload_raise_witness :
  mapM (fun r => normalize_phone (CustomerNumber r)) [rc "Asha" (CStr "abc") 100] = Raise ValueError /\
  run (AUpload [rc "Asha" (CStr "abc") 100]) fresh = run AView fresh.
Proof.
  assert (H : mapM (fun r => normalize_phone (CustomerNumber r)) [rc "Asha" (CStr "abc") 100] = Raise ValueError)
    by (vm_compute; reflexivity).
  split; [exact H|]. exact (run_upload_raise _ _ fresh H).
Defined.

Lemma upload_ok_state_witness :
  (df_receipts fresh = None \/ customer_payment_data fresh ≠ None) /\
  (forall r, r ∈ [rc "Asha" (CStr "919876543210") 10000] ->
     exists o, normalize_phone (CustomerNumber r) = Ok o) /\
  df_receipts (run (AUpload [rc "Asha" (CStr "919876543210") 10000]) fresh)
    = Some (stored_receipt <$> filter (fun r => PaymentMode r = "Credit") [rc "Asha" (CStr "919876543210") 10000]).
Proof.
  assert (H1 : df_receipts fresh = None \/ customer_payment_data fresh ≠ None) by (left; reflexivity).
  assert (H2 : forall r, r ∈ [rc "Asha" (CStr "919876543210") 10000] ->
     exists o, normalize_phone (CustomerNumber r) = Ok o).
  { intros r Hr. apply list_elem_of_singleton in Hr. rewrite Hr.
    exists (Some "9876543210"). vm_compute. reflexivity. }
  split; [exact H1|]. split; [exact H2|].
  exact (proj1 (upload_ok_state _ fresh H1 H2)).
Defined.

Lemma tracker_file_steps_witness :
  run_steps fresh [AView; ARefresh] (run ARefresh (run AView fresh)) /\
  Forall (fun a => is_save a = false) [AView; ARefresh] /\
  tracker_file (run ARefresh (run AView fresh)) = tracker_file fresh.
Proof.
  assert (H1 : run_steps fresh [AView; ARefresh] (run ARefresh (run AView fresh))).
  { apply rs_cons; [exact I|]. apply rs_cons; [exact I|]. apply rs_nil. }
  assert (H2 : Forall (fun a => is_save a = false) [AView; ARefresh]) by (repeat constructor).
  split; [exact H1|]. split; [exact H2|]. exact (tracker_file_steps _ _ _ H1 H2).
Defined.


Lemma normalize_leading_zero_unstable_witness :
  length (list_ascii_of_string "123456789") = 9%nat /\
  forallb is_digit (list_ascii_of_string "123456789") = true /\
  normalize_phone (CStr ("91" ++ string_of_list_ascii ("0"%char :: list_ascii_of_string "123456789")))
    = Ok (Some (string_of_list_ascii ("0"%char :: list_ascii_of_string "123456789"))).
Proof.
  assert (H1 : length (list_ascii_of_string "123456789") = 9%nat) by reflexivity.
  assert (H2 : forallb is_digit (list_ascii_of_string "123456789") = true) by reflexivity.
  split; [exact H1|]. split; [exact H2|].
  exact (proj1 (normalize_leading_zero_unstable _ H1 H2)).
Defined.


Lemma save_refresh_witness :
  df_receipts s_two_c = Some d_two /\ customer_payment_data s_two_c = Some (view_of s_two_c) /\
  customer_summary d_two = Ok summ_two /\ Forall (fun r' => Phone r' ≠ Phone asha_paid) [] /\
  exists v', customer_payment_data (run ARefresh (run (ASave all_filter ([] ++ asha_paid :: []) "t") s_two_c)) = Some v'.
Proof.
  assert (H1 : df_receipts s_two_c = Some d_two) by (vm_compute; reflexivity).
  assert (H2 : customer_payment_data s_two_c = Some (view_of s_two_c)) by (vm_compute; reflexivity).
  assert (H3 : customer_summary d_two = Ok summ_two) by (vm_compute; reflexivity).
  assert (H4 : Forall (fun r' => Phone r' ≠ Phone asha_paid) []) by constructor.
  split; [exact H1|]. split; [exact H2|]. split; [exact H3|]. split; [exact H4|].
  destruct (save_refresh _ _ _ _ all_filter [] [] asha_paid "t" H1 H2 H3 H4) as (v' & Hv' & _).
  exists v'. exact Hv'.
Defined.

Lemma dashboard_status_counts_witness :
  create_dashboard (Some odd_view) = DMetrics odd_metrics /\
  (paid_count odd_metrics + unpaid_count odd_metrics + advance_count odd_metrics
   + partial_count odd_metrics + length (filter (fun r => ¬ known_status r) odd_view))%nat
  = total_customers odd_metrics.
Proof.
  assert (H : create_dashboard (Some odd_view) = DMetrics odd_metrics) by (vm_compute; reflexivity).
  split; [exact H|]. exact (dashboard_status_counts _ _ H).
Defined.


Lemma dashboard_no_tracker_witness :
  summ_two ≠ [] /\ exists m, create_dashboard (Some (payment_row ∅ <$> summ_two)) = DMetrics m.
Proof.
  assert (H : summ_two ≠ []) by (vm_compute; discriminate).
  split; [exact H|]. destruct (dashboard_no_tracker _ H) as (m & Hm & _). exists m. exact Hm.
Defined.
